(** * Payment monitor: webhook ingress, normalizer, alert dispatcher,
      tracking recorder and audit log of [src/index.js]

    A shallow embedding of the handlers of [src/index.js] and the properties
    of its pipeline.

    Modelling conventions.
    - A JavaScript string is a [string] of its UTF-8 bytes.
    - The attributes that the code treats dynamically (e-mail addresses,
      failure codes, anything that meets [||], [?.] or a template literal)
      are values of [JsVal].  Identifiers, event types and currencies of
      a Stripe payload are strings and amounts and [created] are integers, as
      in the Stripe API.
    - A number is [NaN] or an exact rational.  The only arithmetic of the
      program is [created * 1000] and [amount / 100] on integers.  The
      quotient is a binary64 value in the program; written with two decimals
      it agrees with the exact quotient for amounts up to [max_exact_cents]
      (2^46 * 100): the statements about rendered amounts carry that bound.
    - [toUpperCase] is the one of JavaScript on ASCII text; the statements
      that pin an upper-cased currency carry [is_ascii_text].
    - An exception carries an [Error] with its [message].
    - The external collaborators (clock, Gmail, Airtable, Stripe's signature
      verifier, JSON.parse) are the fields of [Collaborators]: functions of
      the position of the call in the run, so any deterministic behaviour,
      returning or throwing, is an instance.  Every collaborator answers
      (a promise that never settles is outside the model).
    - [async]/[await] of one request is sequential composition. *)

From Stdlib Require Import ZArith QArith List Bool Ascii String Lia.
Import ListNotations.

Set Warnings "-register-all".

Local Open Scope string_scope.
Local Open Scope Z_scope.

(** ** Strings *)

Module Str.

Definition nl : string := String (ascii_of_nat 10) EmptyString.
Definition dquote : string := String (ascii_of_nat 34) EmptyString.

Fixpoint repeat_char (c : ascii) (n : nat) : string :=
  match n with
  | O => EmptyString
  | S k => String c (repeat_char c k)
  end.

Definition digit_char (d : Z) : ascii := ascii_of_nat (48 + Z.to_nat d).

(** Decimal digits of a non-negative integer, most significant first. *)
Fixpoint digits_fuel (fuel : nat) (n : Z) (acc : string) : string :=
  match fuel with
  | O => acc
  | S k =>
      let acc' := String (digit_char (n mod 10)) acc in
      if n / 10 =? 0 then acc' else digits_fuel k (n / 10) acc'
  end.

Definition digits (n : Z) : string :=
  digits_fuel (S (Z.to_nat (Z.log2 n))) n EmptyString.

(** [Number.prototype.toString] on an integer (plain digits below 10^21). *)
Definition of_Z (n : Z) : string :=
  if n <? 0 then "-" ++ digits (- n) else digits n.

(** [String.prototype.padStart(w, '0')] on the digits of [n]. *)
Definition pad (w : nat) (n : Z) : string :=
  let s := digits n in
  repeat_char "0"%char (w - String.length s) ++ s.

Definition upper_char (c : ascii) : ascii :=
  let n := nat_of_ascii c in
  if andb (Nat.leb 97 n) (Nat.leb n 122) then ascii_of_nat (n - 32) else c.

(** [String.prototype.toUpperCase] on ASCII text.  The bytes of other
    characters are left as they are, where JavaScript maps their letters
    too: the model is used on ASCII text only. *)
Fixpoint toUpperCase (s : string) : string :=
  match s with
  | EmptyString => EmptyString
  | String c r => String (upper_char c) (toUpperCase r)
  end.

(** [Array.prototype.join]. *)
Fixpoint join (sep : string) (l : list string) : string :=
  match l with
  | [] => EmptyString
  | [x] => x
  | x :: r => x ++ sep ++ join sep r
  end.

(** [Array.prototype.includes] on an array of strings. *)
Definition includes (l : list string) (s : string) : bool :=
  existsb (String.eqb s) l.

Definition contains (s sub : string) : Prop :=
  exists pre post, s = pre ++ sub ++ post.

End Str.

(** ** Base64, as [Buffer.from(message).toString('base64')] *)

Module Base64.

Definition alphabet : string :=
  "ABCDEFGHIJKLMNOPQRSTUVWXYZabcdefghijklmnopqrstuvwxyz0123456789+/".

Definition sextet (n : Z) : ascii :=
  match String.get (Z.to_nat n) alphabet with
  | Some c => c
  | None => "="%char
  end.

Definition byte (c : ascii) : Z := Z.of_nat (nat_of_ascii c).

Fixpoint encode (s : string) : string :=
  match s with
  | EmptyString => EmptyString
  | String a EmptyString =>
      let n := Z.shiftl (byte a) 16 in
      String (sextet (Z.shiftr n 18))
        (String (sextet (Z.land (Z.shiftr n 12) 63)) "==")
  | String a (String b EmptyString) =>
      let n := Z.lor (Z.shiftl (byte a) 16) (Z.shiftl (byte b) 8) in
      String (sextet (Z.shiftr n 18))
        (String (sextet (Z.land (Z.shiftr n 12) 63))
           (String (sextet (Z.land (Z.shiftr n 6) 63)) "="))
  | String a (String b (String c r)) =>
      let n := Z.lor (Z.lor (Z.shiftl (byte a) 16) (Z.shiftl (byte b) 8))
                 (byte c) in
      String (sextet (Z.shiftr n 18))
        (String (sextet (Z.land (Z.shiftr n 12) 63))
           (String (sextet (Z.land (Z.shiftr n 6) 63))
              (String (sextet (Z.land n 63)) (encode r))))
  end.

(** [.replace(/\+/g, '-').replace(/\//g, '_')] *)
Fixpoint url_chars (s : string) : string :=
  match s with
  | EmptyString => EmptyString
  | String c r =>
      String (if Ascii.eqb c "+" then "-"
              else if Ascii.eqb c "/" then "_" else c)%char (url_chars r)
  end.

(** [.replace(/=+$/, '')] *)
Fixpoint strip_padding (s : string) : string :=
  match s with
  | EmptyString => EmptyString
  | String c r =>
      match strip_padding r with
      | EmptyString => if Ascii.eqb c "=" then EmptyString
                       else String c EmptyString
      | r' => String c r'
      end
  end.

Definition encode_url (s : string) : string :=
  strip_padding (url_chars (encode s)).

End Base64.

(** ** JavaScript values *)

Inductive JsVal : Type :=
| JUndefined
| JNull
| JBool (b : bool)
| JStr (s : string).

(** ToBoolean. *)
Definition truthy (v : JsVal) : bool :=
  match v with
  | JUndefined | JNull => false
  | JBool b => b
  | JStr s => negb (String.eqb s EmptyString)
  end.

(** [a || b] *)
Definition js_or (a b : JsVal) : JsVal := if truthy a then a else b.

(** ToString, as a template literal applies it. *)
Definition to_str (v : JsVal) : string :=
  match v with
  | JUndefined => "undefined"
  | JNull => "null"
  | JBool true => "true"
  | JBool false => "false"
  | JStr s => s
  end.

(** A property that is [undefined] or holds an object: [o?.p]. *)
Definition opt_chain {A : Type} (o : option A) (p : A -> JsVal) : JsVal :=
  match o with
  | None => JUndefined
  | Some x => p x
  end.

(** The numbers the sinks compute: [NaN], or the quotient of an integer by
    100, kept as the exact rational [q] that the binary64 result is the
    nearest double to. *)
Inductive JsNum : Type :=
| NaN
| Fin (q : Q).

(** [v / 100] for a property that is absent or holds an integer: the exact
    quotient.  The program computes the binary64 value nearest to it. *)
Definition div100 (v : option Z) : JsNum :=
  match v with
  | None => NaN
  | Some z => Fin (inject_Z z / 100)
  end.

(** [Number.prototype.toFixed(2)]: the integer [n] nearest to [|x| * 100],
    the larger one on a tie, printed with the point before its last two
    digits.  On the exact quotient of an integer by 100 this is what the
    program prints for its binary64 quotient as long as the integer is at
    most 2^46 * 100 in magnitude; beyond that the double is too coarse, and
    from 10^21 on JavaScript switches to exponent notation. *)
Definition toFixed2 (x : JsNum) : string :=
  match x with
  | NaN => "NaN"
  | Fin q =>
      let a := Z.abs (Qnum q) in
      let d := Zpos (Qden q) in
      let n := (2 * 100 * a + d) / (2 * d) in
      (if Qnum q <? 0 then "-" else EmptyString)
        ++ Str.digits (n / 100) ++ "." ++ Str.pad 2 (n mod 100)
  end.

(** Rounding to two decimals, the arithmetic of [toFixed2]. *)
Definition round2 (q : Q) : Q :=
  let a := Z.abs (Qnum q) in
  let d := Zpos (Qden q) in
  let n := (2 * 100 * a + d) / (2 * d) in
  ((if Qnum q <? 0 then - n else n) # 100).

(** ** Errors and results *)

Record Error : Type := mkError { error_message : string }.

Inductive Result (A : Type) : Type :=
| Ok (a : A)
| Throw (e : Error).
Arguments Ok {A} a.
Arguments Throw {A} e.

Definition result_map {A B : Type} (f : A -> B) (r : Result A) : Result B :=
  match r with
  | Ok a => Ok (f a)
  | Throw e => Throw e
  end.

(** [v.toUpperCase()] on a dynamic value. *)
Definition toUpperCase_method (v : JsVal) : Result string :=
  match v with
  | JStr s => Ok (Str.toUpperCase s)
  | JUndefined =>
      Throw (mkError
        "Cannot read properties of undefined (reading 'toUpperCase')")
  | JNull =>
      Throw (mkError "Cannot read properties of null (reading 'toUpperCase')")
  | JBool _ =>
      Throw (mkError "paymentData.currency.toUpperCase is not a function")
  end.

(** ** Dates *)

Module JsDate.

Definition ms_per_day : Z := 86400000.

(** Year, month and day of a count of days since 1970-01-01 (proleptic
    Gregorian calendar). *)
Definition civil (days : Z) : Z * Z * Z :=
  let z := days + 719468 in
  let era := z / 146097 in
  let doe := z - era * 146097 in
  let yoe := (doe - doe / 1460 + doe / 36524 - doe / 146096) / 365 in
  let doy := doe - (365 * yoe + yoe / 4 - yoe / 100) in
  let mp := (5 * doy + 2) / 153 in
  let d := doy - (153 * mp + 2) / 5 + 1 in
  let m := if mp <? 10 then mp + 3 else mp - 9 in
  let y := yoe + era * 400 + (if m <=? 2 then 1 else 0) in
  (y, m, d).

Definition year_string (y : Z) : string :=
  if andb (0 <=? y) (y <=? 9999) then Str.pad 4 y
  else (if y <? 0 then "-" else "+") ++ Str.pad 6 (Z.abs y).

(** The ISO-8601 rendering of a time value in milliseconds. *)
Definition iso (ms : Z) : string :=
  let days := ms / ms_per_day in
  let t := ms mod ms_per_day in
  let '(y, m, d) := civil days in
  year_string y ++ "-" ++ Str.pad 2 m ++ "-" ++ Str.pad 2 d ++ "T"
    ++ Str.pad 2 (t / 3600000) ++ ":" ++ Str.pad 2 (t / 60000 mod 60) ++ ":"
    ++ Str.pad 2 (t / 1000 mod 60) ++ "." ++ Str.pad 3 (t mod 1000) ++ "Z".

Definition max_time : Z := 8640000000000000.

(** [new Date(ms).toISOString()]: a time value out of range makes an invalid
    date, on which [toISOString] throws a RangeError. *)
Definition toISOString (ms : Z) : Result string :=
  if andb (- max_time <=? ms) (ms <=? max_time) then Ok (iso ms)
  else Throw (mkError "Invalid time value").

End JsDate.

(** ** Data model *)

(** The attributes of a Stripe event that the handlers read.  [Object] is
    [event.data.object]; an attribute the payload lacks is [JUndefined]
    (or [None] for a nested object). *)
Module Stripe.

Record PaymentError : Type := mkPaymentError {
  code : JsVal;
  message : JsVal
}.

Record BillingDetails : Type := mkBillingDetails {
  email : JsVal
}.

Record Object : Type := mkObject {
  id : string;
  receipt_email : JsVal;
  customer_email : JsVal;
  billing_details : option BillingDetails;
  amount : Z;
  amount_due : Z;
  currency : string;
  last_payment_error : option PaymentError;
  failure_code : JsVal;
  failure_message : JsVal
}.

Record Event : Type := mkEvent {
  type : string;
  created : Z;
  data_object : Object
}.

End Stripe.

(** The canonical record [paymentData].  Every property may be missing, as
    in the initial [{}]. *)
Record PaymentData : Type := mkPaymentData {
  payment_id : JsVal;
  customer_email : JsVal;
  amount : option Z;
  currency : JsVal;
  failure_code : JsVal;
  failure_message : JsVal;
  failed_at : JsVal
}.

Definition empty_object : PaymentData :=
  mkPaymentData JUndefined JUndefined None JUndefined JUndefined JUndefined
    JUndefined.

Record LogEntry : Type := mkLogEntry {
  timestamp : string;
  message : string
}.

(** A value of an Airtable column. *)
Inductive FieldVal : Type :=
| FVal (v : JsVal)
| FNum (n : JsNum).

Definition Fields : Type := list (string * FieldVal).

Fixpoint field (name : string) (fields : Fields) : option FieldVal :=
  match fields with
  | [] => None
  | (k, v) :: r => if String.eqb k name then Some v else field name r
  end.

Record AirtableRecord : Type := mkAirtableRecord {
  record_id : string
}.

Inductive Json : Type :=
| JsonNull
| JsonBool (b : bool)
| JsonNum (n : Z)
| JsonStr (s : string)
| JsonArr (items : list Json)
| JsonObj (props : list (string * Json)).

(** [req.body] *)
Inductive Body : Type :=
| BodyUndefined
| BodyObject (j : Json)
| BodyBuffer (bytes : string).

Record Request : Type := mkRequest {
  content_type : option string;
  charset : option string;
  headers : list (string * string);
  payload : option string;
  body : Body;
  body_parsed : bool
}.

Inductive ResBody : Type :=
| Send (text : string)
| SendJson (j : Json)
| ErrorPage.

Record Response : Type := mkResponse {
  status : Z;
  res_body : ResBody
}.

(** ** The world outside the handlers *)

(** The major version of Express that is installed: its body parsers
    default [req.body] to [{}] in version 4 and leave it [undefined] in
    version 5. *)
Inductive ExpressVersion : Type :=
| Express4
| Express5.

(** What decompressing a body gives: the bytes, an encoding that is not
    supported, or corrupt data after [produced] bytes. *)
Inductive Inflated : Type :=
| InflatedTo (bytes : string)
| UnsupportedEncoding
| CorruptData (produced : nat).

(** A call to an external collaborator. *)
Inductive Call : Type :=
| ConstructEvent (payload : Body) (sig : JsVal) (secret : JsVal)
| GmailSend (userId : string) (raw : string)
| TableCreate (table : string) (rows : list Fields).

(** The collaborators and the configuration.  [clock k] is the [k]-th reading
    of the wall clock in milliseconds; the other collaborators see the number
    of collaborator calls made before theirs.  [iconv_decode charset bytes]
    is the text of a body and [inflate encoding bytes] its decompression, as
    the body parsers of Express use them. *)
Record Collaborators : Type := mkCollaborators {
  clock : nat -> Z;
  constructEvent : nat -> Body -> JsVal -> JsVal -> Result Stripe.Event;
  gmail_send : nat -> string -> string -> Result unit;
  table_create : nat -> string -> list Fields -> Result (list AirtableRecord);
  JSON_parse : string -> option Json;
  ALERT_EMAIL : JsVal;
  STRIPE_WEBHOOK_SECRET : JsVal;
  express : ExpressVersion;
  iconv_decode : string -> string -> string;
  inflate : string -> string -> Inflated
}.

(** The mutable state: the module variable [logs], the console, and the
    history of clock readings and collaborator calls. *)
Record World : Type := mkWorld {
  logs : list LogEntry;
  console : list string;
  ticks : nat;
  calls : list Call
}.

Definition M (A : Type) : Type := World -> Result A * World.

Definition ret {A : Type} (a : A) : M A := fun w => (Ok a, w).

Definition throw {A : Type} (e : Error) : M A := fun w => (Throw e, w).

Definition bind {A B : Type} (m : M A) (k : A -> M B) : M B :=
  fun w =>
    match m w with
    | (Ok a, w') => k a w'
    | (Throw e, w') => (Throw e, w')
    end.

(** [try { body } catch (error) { handler error }] *)
Definition try_catch {A : Type} (body : M A) (handler : Error -> M A) : M A :=
  fun w =>
    match body w with
    | (Ok a, w') => (Ok a, w')
    | (Throw e, w') => handler e w'
    end.

Definition lift {A : Type} (r : Result A) : M A := fun w => (r, w).

Declare Scope js_scope.
Delimit Scope js_scope with js.
Notation "x <- m ;; k" := (bind m (fun x => k))
  (at level 61, m at next level, right associativity) : js_scope.
Notation "m ;; k" := (bind m (fun _ => k))
  (at level 61, right associativity) : js_scope.
Notation "a === b" := (String.eqb a b) (at level 70, no associativity)
  : js_scope.
Local Open Scope js_scope.

(** [Array.prototype.slice(-n)]: the last [n] elements. *)
Definition slice_last {A : Type} (n : nat) (l : list A) : list A :=
  skipn (List.length l - n) l.

Definition siren : string :=
  String (ascii_of_nat 240) (String (ascii_of_nat 159)
    (String (ascii_of_nat 154) (String (ascii_of_nat 168) EmptyString))).

(** ** The program *)

Section Program.

Variable env : Collaborators.

Definition modify (f : World -> World) : M unit := fun w => (Ok tt, f w).

(** [new Date()], [Date.now()]: one reading of the wall clock. *)
Definition now : M Z := fun w =>
  (Ok (clock env (ticks w)),
   mkWorld (logs w) (console w) (S (ticks w)) (calls w)).

(** A call to a collaborator: it is recorded and answers by its oracle. *)
Definition call {A : Type} (c : Call) (answer : nat -> Result A) : M A :=
  fun w =>
    (answer (List.length (calls w)),
     mkWorld (logs w) (console w) (ticks w) (calls w ++ [c])).

Definition push_log (e : LogEntry) : M unit :=
  modify (fun w => mkWorld (logs w ++ [e]) (console w) (ticks w) (calls w)).

Definition console_log (line : string) : M unit :=
  modify (fun w => mkWorld (logs w) (console w ++ [line]) (ticks w) (calls w)).

Definition truncate_logs : M unit :=
  modify (fun w =>
    mkWorld (if (50 <? List.length (logs w))%nat then slice_last 50 (logs w)
             else logs w)
      (console w) (ticks w) (calls w)).

(** index.js, [addLog]. *)
Definition addLog (message : string) : M unit :=
  t <- now ;;
  let timestamp := JsDate.iso t in
  push_log (mkLogEntry timestamp message) ;;
  console_log ("[" ++ timestamp ++ "] " ++ message) ;;
  truncate_logs.

Definition alert_subject (paymentData : PaymentData) : string :=
  siren ++ " Payment Failed Alert - " ++ to_str (customer_email paymentData).

(** The template literal of [body], given the upper-cased currency. *)
Definition body_template (paymentData : PaymentData) (upper : string)
    : string :=
  Str.nl
  ++ "Payment Failure Detected!" ++ Str.nl
  ++ Str.nl
  ++ "Details:" ++ Str.nl
  ++ "- Payment ID: " ++ to_str (payment_id paymentData) ++ Str.nl
  ++ "- Customer: " ++ to_str (customer_email paymentData) ++ Str.nl
  ++ "- Amount: $" ++ toFixed2 (div100 (amount paymentData)) ++ " "
  ++ upper ++ Str.nl
  ++ "- Failure Code: " ++ to_str (failure_code paymentData) ++ Str.nl
  ++ "- Failure Message: " ++ to_str (failure_message paymentData) ++ Str.nl
  ++ "- Date: " ++ to_str (failed_at paymentData) ++ Str.nl
  ++ Str.nl
  ++ "Please review and take appropriate action." ++ Str.nl
  ++ "    ".

Definition alert_body (paymentData : PaymentData) : Result string :=
  result_map (body_template paymentData)
    (toUpperCase_method (currency paymentData)).

Definition alert_message (subject body_text : string) : string :=
  Str.join Str.nl
    [ "Content-Type: text/plain; charset=" ++ Str.dquote ++ "UTF-8"
        ++ Str.dquote;
      "MIME-Version: 1.0";
      "To: " ++ to_str (js_or (ALERT_EMAIL env) (JStr "admin@example.com"));
      "Subject: " ++ subject;
      EmptyString;
      body_text ].

(** index.js, [sendGmailAlert]. *)
Definition sendGmailAlert (paymentData : PaymentData) : M unit :=
  try_catch
    (let subject := alert_subject paymentData in
     body_text <- lift (alert_body paymentData) ;;
     let message := alert_message subject body_text in
     let encodedMessage := Base64.encode_url message in
     call (GmailSend "me" encodedMessage)
          (fun i => gmail_send env i "me" encodedMessage) ;;
     addLog ("Gmail alert sent for payment "
             ++ to_str (payment_id paymentData)))
    (fun error =>
       addLog ("Error sending Gmail alert: " ++ error_message error)).

Definition airtable_fields (paymentData : PaymentData) (upper : string)
    (created_at : Z) : Fields :=
  [ ("Payment ID", FVal (payment_id paymentData));
    ("Customer Email",
       FVal (js_or (customer_email paymentData) (JStr "Unknown")));
    ("Amount", FNum (div100 (amount paymentData)));
    ("Currency", FVal (JStr upper));
    ("Failure Code", FVal (js_or (failure_code paymentData) (JStr "Unknown")));
    ("Failure Message",
       FVal (js_or (failure_message paymentData) (JStr "Unknown")));
    ("Failed At", FVal (failed_at paymentData));
    ("Status", FVal (JStr "New"));
    ("Created At", FVal (JStr (JsDate.iso created_at))) ].

(** index.js, [addToAirtable]. *)
Definition addToAirtable (paymentData : PaymentData) : M AirtableRecord :=
  try_catch
    (let table := "Failed Payments" in
     upper <- lift (toUpperCase_method (currency paymentData)) ;;
     created_at <- now ;;
     let rows := [airtable_fields paymentData upper created_at] in
     record <- call (TableCreate table rows)
                    (fun i => table_create env i table rows) ;;
     match record with
     | [] =>
         throw (mkError "Cannot read properties of undefined (reading 'id')")
     | record0 :: _ =>
         addLog ("Added to Airtable: " ++ record_id record0) ;;
         ret record0
     end)
    (fun error =>
       addLog ("Error adding to Airtable: " ++ error_message error) ;;
       throw error).

(** index.js, [processFailedPayment], the construction of [paymentData]. *)
Definition normalize (event : Stripe.Event) : Result PaymentData :=
  let failed_at_of (k : string -> PaymentData) : Result PaymentData :=
    result_map k (JsDate.toISOString (Stripe.created event * 1000)) in
  if Stripe.type event === "payment_intent.payment_failed" then
    let pi := Stripe.data_object event in
    failed_at_of (fun iso =>
      {| payment_id := JStr (Stripe.id pi);
         customer_email := js_or (Stripe.receipt_email pi) (JStr "Unknown");
         amount := Some (Stripe.amount pi);
         currency := JStr (Stripe.currency pi);
         failure_code := opt_chain (Stripe.last_payment_error pi) Stripe.code;
         failure_message :=
           opt_chain (Stripe.last_payment_error pi) Stripe.message;
         failed_at := JStr iso |})
  else if Stripe.type event === "invoice.payment_failed" then
    let invoice := Stripe.data_object event in
    failed_at_of (fun iso =>
      {| payment_id := JStr (Stripe.id invoice);
         customer_email :=
           js_or (Stripe.customer_email invoice) (JStr "Unknown");
         amount := Some (Stripe.amount_due invoice);
         currency := JStr (Stripe.currency invoice);
         failure_code := JStr "invoice_payment_failed";
         failure_message := JStr "Invoice payment failed";
         failed_at := JStr iso |})
  else if Stripe.type event === "charge.failed" then
    let charge := Stripe.data_object event in
    failed_at_of (fun iso =>
      {| payment_id := JStr (Stripe.id charge);
         customer_email :=
           js_or (js_or (Stripe.receipt_email charge)
                    (opt_chain (Stripe.billing_details charge) Stripe.email))
             (JStr "Unknown");
         amount := Some (Stripe.amount charge);
         currency := JStr (Stripe.currency charge);
         failure_code := Stripe.failure_code charge;
         failure_message := Stripe.failure_message charge;
         failed_at := JStr iso |})
  else Ok empty_object.

(** index.js, [processFailedPayment]. *)
Definition processFailedPayment (event : Stripe.Event) : M unit :=
  try_catch
    (paymentData <- lift (normalize event) ;;
     sendGmailAlert paymentData ;;
     _ <- addToAirtable paymentData ;;
     addLog ("Successfully processed failed payment: "
             ++ to_str (payment_id paymentData)))
    (fun error =>
       addLog ("Error processing failed payment: " ++ error_message error) ;;
       throw error).

Definition recognized_types : list string :=
  [ "payment_intent.payment_failed"; "invoice.payment_failed";
    "charge.failed" ].

Fixpoint header_lookup (name : string) (hs : list (string * string)) : JsVal :=
  match hs with
  | [] => JUndefined
  | (k, v) :: r => if String.eqb k name then JStr v else header_lookup name r
  end.

Definition received : Response :=
  mkResponse 200 (SendJson (JsonObj [("received", JsonBool true)])).

(** index.js, the handler of [POST /webhook/stripe]. *)
Definition webhook_stripe (req : Request) : M Response :=
  let sig := header_lookup "stripe-signature" (headers req) in
  verified <-
    try_catch
      (event <- call
         (ConstructEvent (body req) sig (STRIPE_WEBHOOK_SECRET env))
         (fun i => constructEvent env i (body req) sig
                     (STRIPE_WEBHOOK_SECRET env)) ;;
       ret (inl event))
      (fun err =>
         addLog ("Webhook signature verification failed: "
                 ++ error_message err) ;;
         ret (inr (mkResponse 400
                     (Send ("Webhook Error: " ++ error_message err))))) ;;
  match verified with
  | inr response => ret response
  | inl event =>
      returned <-
        (if Str.includes recognized_types (Stripe.type event) then
           try_catch
             (processFailedPayment event ;;
              addLog ("Webhook processed: " ++ Stripe.type event) ;;
              ret None)
             (fun error =>
                addLog ("Error processing webhook: " ++ error_message error) ;;
                ret (Some (mkResponse 500 (Send "Internal Server Error"))))
         else ret None) ;;
      match returned with
      | Some response => ret response
      | None => ret received
      end
  end.

Definition json_of_entry (e : LogEntry) : Json :=
  JsonObj [("timestamp", JsonStr (timestamp e));
           ("message", JsonStr (message e))].

(** index.js, the handler of [GET /logs]. *)
Definition get_logs : M Response := fun w =>
  (Ok (mkResponse 200
         (SendJson
            (JsonObj [("logs",
                       JsonArr (map json_of_entry (slice_last 20 (logs w))))]))),
   w).

Definition json_prop (name : string) (v : option Json)
    : list (string * Json) :=
  match v with
  | Some j => [(name, j)]
  | None => []
  end.

(** [JSON.stringify] leaves out a property that is [undefined]. *)
Definition json_of_val (v : JsVal) : option Json :=
  match v with
  | JUndefined => None
  | JNull => Some JsonNull
  | JBool b => Some (JsonBool b)
  | JStr s => Some (JsonStr s)
  end.

Definition json_of_payment (paymentData : PaymentData) : Json :=
  JsonObj
    (json_prop "payment_id" (json_of_val (payment_id paymentData))
     ++ json_prop "customer_email" (json_of_val (customer_email paymentData))
     ++ json_prop "amount" (option_map JsonNum (amount paymentData))
     ++ json_prop "currency" (json_of_val (currency paymentData))
     ++ json_prop "failure_code" (json_of_val (failure_code paymentData))
     ++ json_prop "failure_message"
          (json_of_val (failure_message paymentData))
     ++ json_prop "failed_at" (json_of_val (failed_at paymentData))).

(** index.js, the handler of [POST /test]. *)
Definition post_test : M Response :=
  try_catch
    (t_id <- now ;;
     t_failed <- now ;;
     let testData :=
       {| payment_id := JStr ("test_" ++ Str.of_Z t_id);
          customer_email := JStr "test@example.com";
          amount := Some 2500;
          currency := JStr "usd";
          failure_code := JStr "card_declined";
          failure_message := JStr "Your card was declined.";
          failed_at := JStr (JsDate.iso t_failed) |} in
     sendGmailAlert testData ;;
     _ <- addToAirtable testData ;;
     ret (mkResponse 200
            (SendJson
               (JsonObj [("success", JsonBool true);
                         ("message", JsonStr "Test completed");
                         ("testData", json_of_payment testData)]))))
    (fun error =>
       ret (mkResponse 500
              (SendJson
                 (JsonObj [("success", JsonBool false);
                           ("error", JsonStr (error_message error))])))).

(** *** The middleware of lines 29-30

    [express.json()] and [express.raw({ type: 'application/json' })] are the
    parsers of the body-parser package that Express ships.  Each one leaves
    a request alone whose body an earlier parser has read, defaults
    [req.body] (to [{}] in Express 4), skips a request without a body or of
    another media type, and otherwise reads the body: it decompresses it as
    Content-Encoding says (415 for an encoding it does not support, 400 for
    corrupt data), refuses more than 100kb (413), and then the JSON parser
    (UTF charsets only, else 415; strict, else 400) stores the parsed
    object, the raw parser stores the bytes.  [content_type] is the media
    type of the Content-Type header without its parameters, [charset] its
    charset parameter, both in lower case; [payload] is the body as sent,
    [None] when the request has none. *)

Definition set_body (b : Body) (parsed : bool) (req : Request) : Request :=
  mkRequest (content_type req) (charset req) (headers req) (payload req) b
    parsed.

(** [req.body = req.body || {}] of the parsers of Express 4. *)
Definition or_empty_object (b : Body) : Body :=
  match express env, b with
  | Express4, BodyUndefined => BodyObject (JsonObj [])
  | _, _ => b
  end.

Definition has_type (t : string) (req : Request) : bool :=
  match content_type req with
  | Some c => c === t
  | None => false
  end.

Definition is_json_space (c : ascii) : bool :=
  let n := nat_of_ascii c in
  orb (orb (Nat.eqb n 32) (Nat.eqb n 9)) (orb (Nat.eqb n 10) (Nat.eqb n 13)).

Fixpoint first_char (s : string) : option ascii :=
  match s with
  | EmptyString => None
  | String c r => if is_json_space c then first_char r else Some c
  end.

Definition strict_parse (text : string) : option Json :=
  if text === EmptyString then Some (JsonObj [])
  else
    match first_char text with
    | Some c =>
        if orb (Ascii.eqb c "{") (Ascii.eqb c "[") then JSON_parse env text
        else None
    | None => None
    end.

(** The default [limit] of both parsers: 100kb. *)
Definition body_limit : Z := 102400.

Definition lower_char (c : ascii) : ascii :=
  let n := nat_of_ascii c in
  if andb (Nat.leb 65 n) (Nat.leb n 90) then ascii_of_nat (n + 32) else c.

Fixpoint lower (s : string) : string :=
  match s with
  | EmptyString => EmptyString
  | String c r => String (lower_char c) (lower r)
  end.

(** The bytes of the body once read: decompressed as the Content-Encoding
    header says, and at most [body_limit] of them. *)
Definition read_body (req : Request) (bytes : string) : string + Response :=
  let stream :=
    match header_lookup "content-encoding" (headers req) with
    | JStr encoding =>
        if orb (encoding === EmptyString) (lower encoding === "identity")
        then InflatedTo bytes
        else inflate env encoding bytes
    | _ => InflatedTo bytes
    end in
  match stream with
  | UnsupportedEncoding => inr (mkResponse 415 ErrorPage)
  | CorruptData produced =>
      if body_limit <? Z.of_nat produced then inr (mkResponse 413 ErrorPage)
      else inr (mkResponse 400 ErrorPage)
  | InflatedTo read =>
      if body_limit <? Z.of_nat (String.length read)
      then inr (mkResponse 413 ErrorPage)
      else inl read
  end.

Definition express_json (req : Request) : Request + Response :=
  if body_parsed req then inl req
  else
    let req1 := set_body (or_empty_object (body req)) false req in
    match payload req1 with
    | None => inl req1
    | Some bytes =>
        if negb (has_type "application/json" req1) then inl req1
        else
          let encoding :=
            match charset req1 with
            | Some c => c
            | None => "utf-8"
            end in
          if negb (String.prefix "utf-" encoding)
          then inr (mkResponse 415 ErrorPage)
          else
            match read_body req1 bytes with
            | inr response => inr response
            | inl read =>
                match strict_parse (iconv_decode env encoding read) with
                | Some j => inl (set_body (BodyObject j) true req1)
                | None => inr (mkResponse 400 ErrorPage)
                end
            end
    end.

Definition express_raw (t : string) (req : Request) : Request + Response :=
  if body_parsed req then inl req
  else
    let req1 := set_body (or_empty_object (body req)) false req in
    match payload req1 with
    | None => inl req1
    | Some bytes =>
        if negb (has_type t req1) then inl req1
        else
          match read_body req1 bytes with
          | inr response => inr response
          | inl read => inl (set_body (BodyBuffer read) true req1)
          end
    end.

(** A request as it arrives, before any middleware. *)
Definition incoming (content_type charset : option string)
    (headers : list (string * string)) (payload : option string) : Request :=
  mkRequest content_type charset headers payload BodyUndefined false.

(** The middleware in the order of registration. *)
Definition middleware (req : Request) : Request + Response :=
  match express_json req with
  | inr response => inr response
  | inl req1 => express_raw "application/json" req1
  end.

(** [POST /webhook/stripe] as the application serves it. *)
Definition app_post_webhook_stripe (req : Request) : M Response :=
  match middleware req with
  | inr response => ret response
  | inl req1 => webhook_stripe req1
  end.

End Program.

(** ** Runs and sample data *)

(** The world after [addLog message]. *)
Definition logged (env : Collaborators) (message : string) (w : World)
    : World :=
  let timestamp := JsDate.iso (clock env (ticks w)) in
  let pushed := (logs w ++ [mkLogEntry timestamp message])%list in
  mkWorld
    (if (50 <? List.length pushed)%nat then slice_last 50 pushed else pushed)
    (console w ++ ["[" ++ timestamp ++ "] " ++ message])
    (S (ticks w)) (calls w).

(** A sequence of appends, one per message. *)
Fixpoint add_logs (env : Collaborators) (messages : list string) : M unit :=
  match messages with
  | [] => ret tt
  | m :: r => addLog env m ;; add_logs env r
  end.

(** The entries that appends of [messages] create when the first of them
    makes the [t]-th reading of the clock. *)
Fixpoint stamped (env : Collaborators) (t : nat) (messages : list string)
    : list LogEntry :=
  match messages with
  | [] => []
  | m :: r => mkLogEntry (JsDate.iso (clock env t)) m :: stamped env (S t) r
  end.

(** The world after the calls [c] have been made. *)
Definition called (c : list Call) (w : World) : World :=
  mkWorld (logs w) (console w) (ticks w) (calls w ++ c).

(** The messages of the last [n] entries of the log. *)
Definition last_messages (n : nat) (w : World) : list string :=
  map message (slice_last n (logs w)).

Definition is_gmail_send (c : Call) : bool :=
  match c with
  | GmailSend _ _ => true
  | _ => false
  end.

Definition is_table_create (c : Call) : bool :=
  match c with
  | TableCreate _ _ => true
  | _ => false
  end.

Module Sample.

Definition charge : Stripe.Object :=
  {| Stripe.id := "ch_1";
     Stripe.receipt_email := JUndefined;
     Stripe.customer_email := JUndefined;
     Stripe.billing_details := Some (Stripe.mkBillingDetails (JStr "a@b.com"));
     Stripe.amount := 2500;
     Stripe.amount_due := 0;
     Stripe.currency := "usd";
     Stripe.last_payment_error := None;
     Stripe.failure_code := JStr "card_declined";
     Stripe.failure_message := JStr "Your card was declined." |}.

Definition charge_failed : Stripe.Event :=
  Stripe.mkEvent "charge.failed" 1700000000 charge.

(** A charge whose [receipt_email] is the empty string. *)
Definition charge_empty_receipt : Stripe.Event :=
  Stripe.mkEvent "charge.failed" 1700000000
    {| Stripe.id := "ch_2";
       Stripe.receipt_email := JStr EmptyString;
       Stripe.customer_email := JUndefined;
       Stripe.billing_details :=
         Some (Stripe.mkBillingDetails (JStr "a@b.com"));
       Stripe.amount := 2500;
       Stripe.amount_due := 0;
       Stripe.currency := "usd";
       Stripe.last_payment_error := None;
       Stripe.failure_code := JStr "card_declined";
       Stripe.failure_message := JStr "Your card was declined." |}.

(** A payment intent without [last_payment_error]. *)
Definition intent_failed : Stripe.Event :=
  Stripe.mkEvent "payment_intent.payment_failed" 1700000000
    {| Stripe.id := "pi_1";
       Stripe.receipt_email := JStr "c@d.com";
       Stripe.customer_email := JUndefined;
       Stripe.billing_details := None;
       Stripe.amount := 1999;
       Stripe.amount_due := 0;
       Stripe.currency := "eur";
       Stripe.last_payment_error := None;
       Stripe.failure_code := JUndefined;
       Stripe.failure_message := JUndefined |}.

Definition invoice_failed : Stripe.Event :=
  Stripe.mkEvent "invoice.payment_failed" 1700000000
    {| Stripe.id := "in_1";
       Stripe.receipt_email := JUndefined;
       Stripe.customer_email := JStr EmptyString;
       Stripe.billing_details := None;
       Stripe.amount := 0;
       Stripe.amount_due := 4200;
       Stripe.currency := "gbp";
       Stripe.last_payment_error := None;
       Stripe.failure_code := JUndefined;
       Stripe.failure_message := JUndefined |}.

Definition test_record : PaymentData :=
  {| payment_id := JStr "test_1700000000000";
     customer_email := JStr "test@example.com";
     amount := Some 2500;
     currency := JStr "usd";
     failure_code := JStr "card_declined";
     failure_message := JStr "Your card was declined.";
     failed_at := JStr "2023-11-14T22:13:20.000Z" |}.

(** The record of [intent_failed]: no failure code, no failure message. *)
Definition record_without_reason : PaymentData :=
  {| payment_id := JStr "pi_1";
     customer_email := JStr "c@d.com";
     amount := Some 1999;
     currency := JStr "eur";
     failure_code := JUndefined;
     failure_message := JUndefined;
     failed_at := JStr "2023-11-14T22:13:20.000Z" |}.

(** The record of [charge_failed]. *)
Definition charge_record : PaymentData :=
  {| payment_id := JStr "ch_1";
     customer_email := JStr "a@b.com";
     amount := Some 2500;
     currency := JStr "usd";
     failure_code := JStr "card_declined";
     failure_message := JStr "Your card was declined.";
     failed_at := JStr "2023-11-14T22:13:20.000Z" |}.

(** A record whose [customer_email] is the empty string. *)
Definition record_empty_email : PaymentData :=
  {| payment_id := JStr "test_1";
     customer_email := JStr EmptyString;
     amount := Some 2500;
     currency := JStr "usd";
     failure_code := JStr "card_declined";
     failure_message := JStr "Your card was declined.";
     failed_at := JStr "2023-11-14T22:13:20.000Z" |}.

(** The record of [invoice_failed]. *)
Definition invoice_record : PaymentData :=
  {| payment_id := JStr "in_1";
     customer_email := JStr "Unknown";
     amount := Some 4200;
     currency := JStr "gbp";
     failure_code := JStr "invoice_payment_failed";
     failure_message := JStr "Invoice payment failed";
     failed_at := JStr "2023-11-14T22:13:20.000Z" |}.

Definition wire_payload : string := "{}".

(** The verifier of the Stripe SDK on one signed request: the signature is
    computed over the bytes of the body, so only the raw body with the
    signature header verifies. *)
Definition verifier (event : Stripe.Event) (_ : nat) (payload : Body)
    (sig secret : JsVal) : Result Stripe.Event :=
  match payload, sig with
  | BodyBuffer bytes, JStr s =>
      if andb (bytes === wire_payload) (s === "t=1,v1=abc") then Ok event
      else Throw (mkError "No signatures found matching the expected signature for payload.")
  | BodyBuffer _, _ =>
      Throw (mkError "No stripe-signature header value was provided.")
  | _, _ =>
      Throw (mkError "Webhook payload must be provided as a string or a Buffer.")
  end.

Definition tick_clock (k : nat) : Z := 1700000000000 + 1000 * Z.of_nat k.

Definition gmail_up (_ : nat) (_ _ : string) : Result unit := Ok tt.

Definition gmail_down (_ : nat) (_ _ : string) : Result unit :=
  Throw (mkError "invalid_grant").

Definition airtable_up (_ : nat) (_ : string) (_ : list Fields)
    : Result (list AirtableRecord) :=
  Ok [mkAirtableRecord "rec1"].

Definition airtable_down (_ : nat) (_ : string) (_ : list Fields)
    : Result (list AirtableRecord) :=
  Throw (mkError "NOT_FOUND").

Definition parse_any (_ : string) : option Json := Some (JsonObj []).

Definition env (event : Stripe.Event)
    (gmail : nat -> string -> string -> Result unit)
    (airtable : nat -> string -> list Fields -> Result (list AirtableRecord))
    : Collaborators :=
  {| clock := tick_clock;
     constructEvent := verifier event;
     gmail_send := gmail;
     table_create := airtable;
     JSON_parse := parse_any;
     ALERT_EMAIL := JUndefined;
     STRIPE_WEBHOOK_SECRET := JStr "whsec_test";
     express := Express4;
     iconv_decode := fun _ bytes => bytes;
     inflate := fun _ bytes => InflatedTo bytes |}.

Definition world : World := mkWorld [] [] 0 [].

Definition signed_headers : list (string * string) :=
  [("content-type", "application/json; charset=utf-8");
   ("stripe-signature", "t=1,v1=abc")].

(** The signed request as Stripe posts it. *)
Definition signed_request : Request :=
  incoming (Some "application/json") (Some "utf-8") signed_headers
    (Some wire_payload).

(** The same request as a route sees it that is given the raw body. *)
Definition raw_request : Request :=
  mkRequest (Some "application/json") (Some "utf-8") signed_headers
    (Some wire_payload) (BodyBuffer wire_payload) true.

(** A request whose signature header is missing. *)
Definition unsigned_request : Request :=
  mkRequest (Some "application/json") (Some "utf-8")
    [("content-type", "application/json")]
    (Some wire_payload) (BodyBuffer wire_payload) true.

End Sample.

(** The world after one reading of the clock. *)
Definition ticked (w : World) : World :=
  mkWorld (logs w) (console w) (S (ticks w)) (calls w).

(** The worlds after a sequence of appends. *)
Fixpoint logged_all (env : Collaborators) (messages : list string) (w : World)
    : World :=
  match messages with
  | [] => w
  | m :: r => logged_all env r (logged env m w)
  end.

(** The attribute a shape keeps its amount in: [amount_due] of an invoice,
    [amount] of a payment intent and of a charge. *)
Definition source_amount (event : Stripe.Event) : Z :=
  if Stripe.type event === "invoice.payment_failed"
  then Stripe.amount_due (Stripe.data_object event)
  else Stripe.amount (Stripe.data_object event).

(** An amount of minor units written in major units with two decimals. *)
Definition cents_string (z : Z) : string :=
  (if z <? 0 then "-" else EmptyString)
    ++ Str.digits (Z.abs z / 100) ++ "." ++ Str.pad 2 (Z.abs z mod 100).

(** ** The rest of the application *)

(** index.js, the handler of [GET /]. *)
Definition get_root : M Response :=
  ret (mkResponse 200
         (SendJson
            (JsonObj
               [("name", JsonStr "Payment Monitor");
                ("status", JsonStr "running");
                ("endpoints",
                 JsonObj
                   [("GET /", JsonStr "Status and available endpoints");
                    ("GET /health", JsonStr "Health check");
                    ("GET /logs", JsonStr "View recent logs");
                    ("POST /test", JsonStr "Manual test run");
                    ("POST /webhook/stripe",
                     JsonStr "Stripe webhook endpoint")])]))).

(** index.js, the handler of [GET /health]. *)
Definition get_health (env : Collaborators) : M Response :=
  t <- now env ;;
  ret (mkResponse 200
         (SendJson
            (JsonObj [("status", JsonStr "healthy");
                      ("timestamp", JsonStr (JsDate.iso t))]))).

(** [`${port}`] for [port = process.env.PORT || 3000]; an environment
    variable is a string or [undefined]. *)
Definition port_text (PORT : JsVal) : string :=
  if truthy PORT then to_str PORT else "3000".

(** index.js, the callback of [app.listen]. *)
Definition listen_callback (env : Collaborators) (PORT : JsVal) : M unit :=
  addLog env ("Payment Monitor started on port " ++ port_text PORT).

(** A request to one of the routes of the application. *)
Inductive Route : Type :=
| GetRoot (req : Request)
| GetHealth (req : Request)
| GetLogs (req : Request)
| PostTest (req : Request)
| PostWebhookStripe (req : Request).

Definition request_of (r : Route) : Request :=
  match r with
  | GetRoot req | GetHealth req | GetLogs req | PostTest req
  | PostWebhookStripe req => req
  end.

(** The application: the middleware of lines 29-30 runs in front of every
    route, then the handler of the route. *)
Definition serve (env : Collaborators) (r : Route) : M Response :=
  match middleware env (request_of r) with
  | inr response => ret response
  | inl req1 =>
      match r with
      | GetRoot _ => get_root
      | GetHealth _ => get_health env
      | GetLogs _ => get_logs
      | PostTest _ => post_test env
      | PostWebhookStripe _ => webhook_stripe env req1
      end
  end.

(** The world of a fresh process once it listens. *)
Definition started (env : Collaborators) (PORT : JsVal) : World :=
  snd (listen_callback env PORT (mkWorld [] [] 0 [])).

(** The world after a sequence of requests, served one after the other. *)
Fixpoint serve_all (env : Collaborators) (requests : list Route) (w : World)
    : World :=
  match requests with
  | [] => w
  | r :: rest => serve_all env rest (snd (serve env r w))
  end.

(** The line [console.log] prints for an entry. *)
Definition entry_line (e : LogEntry) : string :=
  "[" ++ timestamp e ++ "] " ++ message e.

(** The log holds at most 50 entries, and they are the entries of the last
    lines of the console. *)
Definition log_mirrors_console (w : World) : Prop :=
  (List.length (logs w) <= 50)%nat
  /\ map entry_line (logs w) = slice_last (List.length (logs w)) (console w).

(** A world reached from another by appends to the log, collaborator calls
    and readings of the clock. *)
Inductive grows (env : Collaborators) : World -> World -> Prop :=
| grows_refl w : grows env w w
| grows_logged w w' m : grows env w w' -> grows env w (logged env m w')
| grows_called w w' c : grows env w w' -> grows env w (called c w')
| grows_ticked w w' : grows env w w' -> grows env w (ticked w').

(** A computation that only appends, calls and reads the clock. *)
Definition steady (env : Collaborators) {A : Type} (m : M A) : Prop :=
  forall w, grows env w (snd (m w)).

(** The characters of base64url. *)
Definition is_url_safe (c : ascii) : bool :=
  let n := nat_of_ascii c in
  orb (orb (andb (Nat.leb 65 n) (Nat.leb n 90))
           (andb (Nat.leb 97 n) (Nat.leb n 122)))
      (orb (andb (Nat.leb 48 n) (Nat.leb n 57))
           (orb (Nat.eqb n 45) (Nat.eqb n 95))).

Fixpoint all_chars (p : ascii -> bool) (s : string) : bool :=
  match s with
  | EmptyString => true
  | String c r => andb (p c) (all_chars p r)
  end.

(** Text of ASCII characters only. *)
Definition is_ascii_text (s : string) : bool :=
  all_chars (fun c => Nat.ltb (nat_of_ascii c) 128) s.

(** The largest amount whose binary64 quotient by 100 still prints, with two
    decimals, as the amount itself: 2^46 * 100.  Up to here two doubles
    next to each other are less than 0.01 apart. *)
Definition max_exact_cents : Z := 7036874417766400.

(** The characters of the base64 alphabet, without the padding. *)
Definition is_base64 (c : ascii) : bool :=
  let n := nat_of_ascii c in
  orb (orb (andb (Nat.leb 65 n) (Nat.leb n 90))
           (andb (Nat.leb 97 n) (Nat.leb n 122)))
      (orb (andb (Nat.leb 48 n) (Nat.leb n 57))
           (orb (Nat.eqb n 43) (Nat.eqb n 47))).

(** Characters of the alphabet followed by padding only. *)
Fixpoint padded (s : string) : bool :=
  match s with
  | EmptyString => true
  | String c r =>
      if Ascii.eqb c "=" then all_chars (Ascii.eqb "=") r
      else andb (is_base64 c) (padded r)
  end.

(** The record [testData] of [POST /test], given the two readings of the
    clock. *)
Definition test_data (t_id t_failed : Z) : PaymentData :=
  {| payment_id := JStr ("test_" ++ Str.of_Z t_id);
     customer_email := JStr "test@example.com";
     amount := Some 2500;
     currency := JStr "usd";
     failure_code := JStr "card_declined";
     failure_message := JStr "Your card was declined.";
     failed_at := JStr (JsDate.iso t_failed) |}.

(** The collaborators with another Gmail. *)
Definition with_gmail (gmail : nat -> string -> string -> Result unit)
    (env : Collaborators) : Collaborators :=
  mkCollaborators (clock env) (constructEvent env) gmail (table_create env)
    (JSON_parse env) (ALERT_EMAIL env) (STRIPE_WEBHOOK_SECRET env)
    (express env) (iconv_decode env) (inflate env).

Module Sample2.

(** An event of a type the route does not process. *)
Definition other_event : Stripe.Event :=
  Stripe.mkEvent "customer.created" 1700000000 Sample.charge.

(** A charge whose [created] lies beyond the range of [Date]. *)
Definition charge_far_future : Stripe.Event :=
  Stripe.mkEvent "charge.failed" 8640000000001 Sample.charge.

End Sample2.

(** * Properties *)

(** ** The primitives on sample values *)

Example iso_epoch : JsDate.iso 0 = "1970-01-01T00:00:00.000Z".
Proof. reflexivity. Qed.

Example iso_2023 : JsDate.iso 1700000000000 = "2023-11-14T22:13:20.000Z".
Proof. reflexivity. Qed.

Example iso_leap : JsDate.iso 951782400123 = "2000-02-29T00:00:00.123Z".
Proof. reflexivity. Qed.

Example iso_before_epoch : JsDate.iso (-1) = "1969-12-31T23:59:59.999Z".
Proof. reflexivity. Qed.

Example iso_max : JsDate.iso JsDate.max_time = "+275760-09-13T00:00:00.000Z".
Proof. reflexivity. Qed.

Example base64_foobar : Base64.encode "foobar" = "Zm9vYmFy".
Proof. reflexivity. Qed.

Example base64_url : Base64.encode_url "fo" = "Zm8".
Proof. reflexivity. Qed.

Example toFixed2_2500 : toFixed2 (div100 (Some 2500)) = "25.00".
Proof. reflexivity. Qed.

Example toFixed2_5 : toFixed2 (div100 (Some 5)) = "0.05".
Proof. reflexivity. Qed.

Example toFixed2_neg : toFixed2 (div100 (Some (-1999))) = "-19.99".
Proof. reflexivity. Qed.

Example scenario_charge_failed :
  normalize Sample.charge_failed
  = Ok {| payment_id := JStr "ch_1";
          customer_email := JStr "a@b.com";
          amount := Some 2500;
          currency := JStr "usd";
          failure_code := JStr "card_declined";
          failure_message := JStr "Your card was declined.";
          failed_at := JStr "2023-11-14T22:13:20.000Z" |}.
Proof. reflexivity. Qed.

(** ** [slice(-n)] *)

Section SliceLast.

Context {A : Type}.
Implicit Types l a b : list A.

Lemma slice_last_short n l :
  (List.length l <= n)%nat -> slice_last n l = l.
Proof.
  intros H. unfold slice_last.
  replace (List.length l - n)%nat with 0%nat by lia. reflexivity.
Qed.

Lemma slice_last_length n l :
  List.length (slice_last n l) = Nat.min n (List.length l).
Proof. unfold slice_last. rewrite length_skipn. lia. Qed.

Lemma slice_last_app n a b :
  slice_last n (slice_last n a ++ b) = slice_last n (a ++ b).
Proof.
  destruct (Nat.le_gt_cases (List.length a) n) as [Hle | Hgt].
  - now rewrite (slice_last_short n a).
  - unfold slice_last at 1 3.
    rewrite !length_app, slice_last_length.
    unfold slice_last.
    rewrite (skipn_app (List.length a + List.length b - n)).
    rewrite skipn_app, length_skipn, skipn_skipn.
    f_equal; [f_equal | f_equal]; lia.
Qed.

Lemma slice_last_twice m n l :
  (m <= n)%nat -> slice_last m (slice_last n l) = slice_last m l.
Proof.
  intros H. unfold slice_last at 1. rewrite slice_last_length.
  unfold slice_last. rewrite skipn_skipn. f_equal. lia.
Qed.

Lemma slice_last_suffix a b : slice_last (List.length b) (a ++ b) = b.
Proof.
  unfold slice_last. rewrite length_app, skipn_app.
  replace (List.length a + List.length b - List.length b)%nat
    with (List.length a) by lia.
  now rewrite skipn_all, Nat.sub_diag.
Qed.

End SliceLast.

(** ** The audit log *)

Lemma addLog_run env m w : addLog env m w = (Ok tt, logged env m w).
Proof. reflexivity. Qed.

Lemma logs_logged env m w :
  logs (logged env m w)
  = slice_last 50
      (logs w ++ [mkLogEntry (JsDate.iso (clock env (ticks w))) m]).
Proof.
  unfold logged; cbn [logs].
  destruct (Nat.ltb_spec 50
    (List.length (logs w ++ [mkLogEntry (JsDate.iso (clock env (ticks w))) m])))
    as [H | H].
  - reflexivity.
  - symmetry. now apply slice_last_short.
Qed.

Lemma calls_logged env m w : calls (logged env m w) = calls w.
Proof. reflexivity. Qed.

Lemma ticks_logged env m w : ticks (logged env m w) = S (ticks w).
Proof. reflexivity. Qed.

Lemma logs_logged_bound env m w :
  (List.length (logs (logged env m w)) <= 50)%nat.
Proof. rewrite logs_logged, slice_last_length. lia. Qed.

Lemma add_logs_run env messages :
  forall w, add_logs env messages w = (Ok tt, logged_all env messages w).
Proof.
  induction messages as [| m r IH]; intros w.
  - reflexivity.
  - cbn [add_logs logged_all]. unfold bind. rewrite addLog_run. apply IH.
Qed.

Lemma logs_logged_all env messages :
  forall w,
    (List.length (logs w) <= 50)%nat ->
    logs (logged_all env messages w)
    = slice_last 50 (logs w ++ stamped env (ticks w) messages).
Proof.
  induction messages as [| m r IH]; intros w Hw.
  - cbn [logged_all stamped]. rewrite app_nil_r.
    symmetry. now apply slice_last_short.
  - cbn [logged_all stamped].
    rewrite IH by apply logs_logged_bound.
    rewrite logs_logged, ticks_logged, slice_last_app.
    now rewrite <- app_assoc.
Qed.

(** C6. From an empty log, after any sequence of appends the log holds at
    most 50 entries, namely the last 50 of the appended ones in the order of
    their insertion; after 55 appends [GET /logs] answers with the entries
    36 to 55 in that order; and [GET /logs] leaves the world as it is. *)
Theorem audit_log_bounded_recent :
  forall env (console0 : list string) (t : nat) (calls0 : list Call),
    let w0 := mkWorld [] console0 t calls0 in
    (forall messages : list string,
       let w := snd (add_logs env messages w0) in
       fst (add_logs env messages w0) = Ok tt
       /\ (List.length (logs w) <= 50)%nat
       /\ logs w = slice_last 50 (stamped env t messages))
    /\ (forall f : nat -> string,
          let w := snd (add_logs env (map f (seq 1 55)) w0) in
          get_logs w
          = (Ok (mkResponse 200
                   (SendJson
                      (JsonObj
                         [("logs",
                           JsonArr
                             (map json_of_entry
                                (stamped env (35 + t)
                                   (map f (seq 36 20)))))]))),
             w))
    /\ (forall w, snd (get_logs w) = w).
Proof.
  intros env console0 t calls0 w0.
  assert (Hlogs : forall messages,
            logs (snd (add_logs env messages w0))
            = slice_last 50 (stamped env t messages)).
  { intros messages. rewrite add_logs_run. cbn [snd].
    rewrite logs_logged_all by (cbn; lia). reflexivity. }
  split; [| split].
  - intros messages w. split; [| split].
    + now rewrite add_logs_run.
    + subst w. rewrite Hlogs, slice_last_length. lia.
    + apply Hlogs.
  - intros f w. unfold get_logs. subst w.
    rewrite Hlogs, slice_last_twice by lia.
    reflexivity.
  - reflexivity.
Qed.

Lemma slice_last_snoc {A : Type} (k : nat) (l : list A) (x : A) :
  slice_last (S k) (l ++ [x]) = (slice_last k l ++ [x])%list.
Proof.
  unfold slice_last. rewrite last_length, skipn_app.
  replace (S (List.length l) - S k)%nat with (List.length l - k)%nat by lia.
  replace (List.length l - k - List.length l)%nat with 0%nat by lia.
  reflexivity.
Qed.

Lemma last_messages_logged env k m w :
  (k < 50)%nat ->
  last_messages (S k) (logged env m w) = (last_messages k w ++ [m])%list.
Proof.
  intros Hk. unfold last_messages.
  rewrite logs_logged, slice_last_twice by lia.
  rewrite slice_last_snoc, map_app. reflexivity.
Qed.

Lemma last_messages_0 w : last_messages 0 w = [].
Proof.
  unfold last_messages, slice_last.
  now rewrite Nat.sub_0_r, skipn_all.
Qed.

(** ** The sinks, step by step *)

Lemma sendGmailAlert_run env pd w :
  sendGmailAlert env pd w
  = match alert_body pd with
    | Throw e =>
        (Ok tt,
         logged env ("Error sending Gmail alert: " ++ error_message e) w)
    | Ok text =>
        let raw :=
          Base64.encode_url (alert_message env (alert_subject pd) text) in
        let w1 := called [GmailSend "me" raw] w in
        match gmail_send env (List.length (calls w)) "me" raw with
        | Ok _ =>
            (Ok tt,
             logged env
               ("Gmail alert sent for payment " ++ to_str (payment_id pd)) w1)
        | Throw e =>
            (Ok tt,
             logged env ("Error sending Gmail alert: " ++ error_message e) w1)
        end
    end.
Proof.
  unfold sendGmailAlert, try_catch, bind, lift, call.
  destruct (alert_body pd) as [text | e]; [| reflexivity].
  cbv zeta.
  destruct (gmail_send env (List.length (calls w)) "me"
              (Base64.encode_url (alert_message env (alert_subject pd) text)))
    as [[] | e]; reflexivity.
Qed.

Lemma addToAirtable_run env pd w :
  addToAirtable env pd w
  = match toUpperCase_method (currency pd) with
    | Throw e =>
        (Throw e,
         logged env ("Error adding to Airtable: " ++ error_message e) w)
    | Ok upper =>
        let rows := [airtable_fields pd upper (clock env (ticks w))] in
        let w1 := called [TableCreate "Failed Payments" rows] (ticked w) in
        match table_create env (List.length (calls w)) "Failed Payments" rows
        with
        | Throw e =>
            (Throw e,
             logged env ("Error adding to Airtable: " ++ error_message e) w1)
        | Ok [] =>
            (Throw
               (mkError "Cannot read properties of undefined (reading 'id')"),
             logged env
               ("Error adding to Airtable: "
                ++ "Cannot read properties of undefined (reading 'id')") w1)
        | Ok (record0 :: _) =>
            (Ok record0,
             logged env ("Added to Airtable: " ++ record_id record0) w1)
        end
    end.
Proof.
  unfold addToAirtable, try_catch, bind, lift, call, now, throw, ret.
  destruct (toUpperCase_method (currency pd)) as [upper | e]; [| reflexivity].
  cbv zeta. cbn [calls ticks].
  destruct (table_create env (List.length (calls w)) "Failed Payments"
              [airtable_fields pd upper (clock env (ticks w))])
    as [[| record0 rest] | e]; reflexivity.
Qed.

Lemma processFailedPayment_run env event w :
  processFailedPayment env event w
  = match normalize event with
    | Throw e =>
        (Throw e,
         logged env ("Error processing failed payment: " ++ error_message e) w)
    | Ok pd =>
        match addToAirtable env pd (snd (sendGmailAlert env pd w)) with
        | (Ok _, w2) =>
            (Ok tt,
             logged env
               ("Successfully processed failed payment: "
                ++ to_str (payment_id pd)) w2)
        | (Throw e, w2) =>
            (Throw e,
             logged env
               ("Error processing failed payment: " ++ error_message e) w2)
        end
    end.
Proof.
  unfold processFailedPayment, try_catch, bind, lift, throw.
  destruct (normalize event) as [pd | e]; [| reflexivity].
  rewrite (sendGmailAlert_run env pd w).
  destruct (alert_body pd) as [text | e].
  - cbv zeta.
    destruct (gmail_send env (List.length (calls w)) "me"
                (Base64.encode_url
                   (alert_message env (alert_subject pd) text)))
      as [[] | e]; cbn [snd];
      match goal with
      | |- context [addToAirtable env pd ?w1] =>
          destruct (addToAirtable env pd w1) as [[r | e'] w2]; reflexivity
      end.
  - cbn [snd].
    match goal with
    | |- context [addToAirtable env pd ?w1] =>
        destruct (addToAirtable env pd w1) as [[r | e'] w2]; reflexivity
    end.
Qed.

Lemma sendGmailAlert_returns env pd w :
  fst (sendGmailAlert env pd w) = Ok tt.
Proof.
  rewrite sendGmailAlert_run.
  destruct (alert_body pd) as [text | e]; [| reflexivity].
  cbv zeta.
  destruct (gmail_send env _ _ _) as [[] | e]; reflexivity.
Qed.

Lemma webhook_stripe_run env req w :
  webhook_stripe env req w
  = let sig := header_lookup "stripe-signature" (headers req) in
    let secret := STRIPE_WEBHOOK_SECRET env in
    let w0 := called [ConstructEvent (body req) sig secret] w in
    match constructEvent env (List.length (calls w)) (body req) sig secret with
    | Throw err =>
        (Ok (mkResponse 400 (Send ("Webhook Error: " ++ error_message err))),
         logged env
           ("Webhook signature verification failed: " ++ error_message err) w0)
    | Ok event =>
        if Str.includes recognized_types (Stripe.type event) then
          match processFailedPayment env event w0 with
          | (Ok _, w1) =>
              (Ok received,
               logged env ("Webhook processed: " ++ Stripe.type event) w1)
          | (Throw e, w1) =>
              (Ok (mkResponse 500 (Send "Internal Server Error")),
               logged env ("Error processing webhook: " ++ error_message e) w1)
          end
        else (Ok received, w0)
    end.
Proof.
  unfold webhook_stripe, try_catch, bind, call, ret, called. cbv zeta.
  destruct (constructEvent env (List.length (calls w)) (body req)
              (header_lookup "stripe-signature" (headers req))
              (STRIPE_WEBHOOK_SECRET env)) as [event | err]; [| reflexivity].
  destruct (Str.includes recognized_types (Stripe.type event));
    [| reflexivity].
  match goal with
  | |- context [processFailedPayment env event ?w0] =>
      destruct (processFailedPayment env event w0) as [[[] | e] w1];
        reflexivity
  end.
Qed.

(** ** The normalizer on the three shapes *)

Lemma recognized_cases t :
  Str.includes recognized_types t = true ->
  t = "payment_intent.payment_failed" \/ t = "invoice.payment_failed"
  \/ t = "charge.failed".
Proof.
  unfold Str.includes, recognized_types. cbn [existsb].
  rewrite !orb_true_iff, !String.eqb_eq. intuition discriminate.
Qed.

Ltac by_shape event H :=
  destruct (recognized_cases _ H) as [Ht | [Ht | Ht]];
  unfold normalize; rewrite Ht;
  cbv beta iota delta [String.eqb Ascii.eqb Bool.eqb];
  cbv beta iota.

Lemma normalize_strings event pd :
  Str.includes recognized_types (Stripe.type event) = true ->
  normalize event = Ok pd ->
  payment_id pd = JStr (Stripe.id (Stripe.data_object event))
  /\ currency pd = JStr (Stripe.currency (Stripe.data_object event))
  /\ exists iso,
       JsDate.toISOString (Stripe.created event * 1000) = Ok iso
       /\ failed_at pd = JStr iso.
Proof.
  intros Hrec.
  by_shape event Hrec;
    destruct (JsDate.toISOString (Stripe.created event * 1000)) as [iso | e];
    cbn [result_map]; intros Heq; inversion Heq; subst pd; cbn;
    eauto.
Qed.

Lemma alert_body_of_string pd c :
  currency pd = JStr c ->
  alert_body pd = Ok (body_template pd (Str.toUpperCase c)).
Proof. intros H. unfold alert_body. now rewrite H. Qed.

Lemma sendGmailAlert_world env pd c w :
  currency pd = JStr c ->
  let raw :=
    Base64.encode_url
      (alert_message env (alert_subject pd)
         (body_template pd (Str.toUpperCase c))) in
  snd (sendGmailAlert env pd w)
  = logged env
      (match gmail_send env (List.length (calls w)) "me" raw with
       | Ok _ => "Gmail alert sent for payment " ++ to_str (payment_id pd)
       | Throw e => "Error sending Gmail alert: " ++ error_message e
       end)
      (called [GmailSend "me" raw] w).
Proof.
  intros Hc raw. rewrite sendGmailAlert_run, (alert_body_of_string pd c Hc).
  cbv zeta. fold raw.
  destruct (gmail_send env (List.length (calls w)) "me" raw) as [[] | e];
    reflexivity.
Qed.

(** ** The pipeline *)

(** C3. [sendGmailAlert] returns normally on every record, in every world and
    for every behaviour of the collaborators.  In [processFailedPayment] the
    Recorder runs on the same record in the world the Dispatcher leaves, and
    its outcome is the outcome of the pipeline.  When the e-mail collaborator
    throws, the failure is logged, the row of the record is still sent to
    the store, and the record the store answers with is returned. *)
Theorem dispatcher_contains_failures :
  forall env,
    (forall pd w, fst (sendGmailAlert env pd w) = Ok tt)
    /\ (forall event pd w,
          normalize event = Ok pd ->
          processFailedPayment env event w
          = match addToAirtable env pd (snd (sendGmailAlert env pd w)) with
            | (Ok _, w2) =>
                (Ok tt,
                 logged env
                   ("Successfully processed failed payment: "
                    ++ to_str (payment_id pd)) w2)
            | (Throw e, w2) =>
                (Throw e,
                 logged env
                   ("Error processing failed payment: " ++ error_message e)
                   w2)
            end)
    /\ (forall event pd w e r rest,
          Str.includes recognized_types (Stripe.type event) = true ->
          normalize event = Ok pd ->
          (forall i u raw, gmail_send env i u raw = Throw e) ->
          (forall i t rows, table_create env i t rows = Ok (r :: rest)) ->
          let w1 := snd (sendGmailAlert env pd w) in
          last_messages 1 w1
          = ["Error sending Gmail alert: " ++ error_message e]
          /\ fst (addToAirtable env pd w1) = Ok r
          /\ fst (processFailedPayment env event w) = Ok tt
          /\ exists raw upper t,
               calls (snd (processFailedPayment env event w))
               = (calls w
                  ++ [GmailSend "me" raw;
                      TableCreate "Failed Payments"
                        [airtable_fields pd upper t]])%list).
Proof.
  intros env. split; [| split].
  - apply sendGmailAlert_returns.
  - intros event pd w Hn. rewrite processFailedPayment_run, Hn. reflexivity.
  - intros event pd w e r rest Hrec Hn Hgmail Hstore w1.
    destruct (normalize_strings event pd Hrec Hn) as (_ & Hc & _).
    assert (Hdef : snd (sendGmailAlert env pd w) = w1) by reflexivity.
    clearbody w1.
    rewrite (sendGmailAlert_world env pd _ w Hc), Hgmail in Hdef.
    assert (Hcalls : calls w1
                     = (calls w
                        ++ [GmailSend "me"
                              (Base64.encode_url
                                 (alert_message env (alert_subject pd)
                                    (body_template pd
                                       (Str.toUpperCase
                                          (Stripe.currency
                                             (Stripe.data_object event))))))])
                       %list)
      by (rewrite <- Hdef; reflexivity).
    assert (Hrun : addToAirtable env pd w1
                   = (Ok r,
                      logged env ("Added to Airtable: " ++ record_id r)
                        (called
                           [TableCreate "Failed Payments"
                              [airtable_fields pd
                                 (Str.toUpperCase
                                    (Stripe.currency
                                       (Stripe.data_object event)))
                                 (clock env (ticks w1))]]
                           (ticked w1)))).
    { rewrite addToAirtable_run, Hc. cbn [toUpperCase_method]. cbv zeta.
      now rewrite Hstore. }
    assert (Hpipe : processFailedPayment env event w
                    = (Ok tt,
                       logged env
                         ("Successfully processed failed payment: "
                          ++ to_str (payment_id pd))
                         (snd (addToAirtable env pd w1)))).
    { rewrite processFailedPayment_run, Hn.
      rewrite (sendGmailAlert_world env pd _ w Hc), Hgmail, Hdef.
      now rewrite Hrun. }
    split; [| split; [| split]].
    + rewrite <- Hdef, last_messages_logged, last_messages_0 by lia.
      reflexivity.
    + now rewrite Hrun.
    + now rewrite Hpipe.
    + rewrite Hpipe, Hrun. cbn [snd]. rewrite !calls_logged.
      unfold called. cbn [calls]. unfold ticked. cbn [calls].
      rewrite Hcalls, <- app_assoc.
      do 3 eexists. reflexivity.
Qed.

(** C4. On a verified event of a recognized type that normalizes to a record:
    if the store throws, [addToAirtable] logs the error and throws it again,
    the log ends with the entries of the Recorder, of [processFailedPayment]
    and of the route, and the route answers 500, whatever the e-mail
    collaborator did; if the store answers with a record, the route answers
    200 with [{received: true}]. *)
Theorem recorder_outcome_decides_response :
  forall env req w event pd,
    constructEvent env (List.length (calls w)) (body req)
      (header_lookup "stripe-signature" (headers req))
      (STRIPE_WEBHOOK_SECRET env) = Ok event ->
    Str.includes recognized_types (Stripe.type event) = true ->
    normalize event = Ok pd ->
    (forall e,
       (forall i t rows, table_create env i t rows = Throw e) ->
       (forall w',
          exists w'',
            addToAirtable env pd w' = (Throw e, w'')
            /\ last_messages 1 w''
               = ["Error adding to Airtable: " ++ error_message e])
       /\ fst (webhook_stripe env req w)
          = Ok (mkResponse 500 (Send "Internal Server Error"))
       /\ last_messages 3 (snd (webhook_stripe env req w))
          = ["Error adding to Airtable: " ++ error_message e;
             "Error processing failed payment: " ++ error_message e;
             "Error processing webhook: " ++ error_message e])
    /\ (forall r rest,
          (forall i t rows, table_create env i t rows = Ok (r :: rest)) ->
          fst (webhook_stripe env req w) = Ok received
          /\ last_messages 3 (snd (webhook_stripe env req w))
             = ["Added to Airtable: " ++ record_id r;
                "Successfully processed failed payment: "
                ++ to_str (payment_id pd);
                "Webhook processed: " ++ Stripe.type event]).
Proof.
  intros env req w event pd Hsig Hrec Hn.
  destruct (normalize_strings event pd Hrec Hn) as (_ & Hc & _).
  split.
  - intros e Hstore.
    assert (Hrun : forall w',
              addToAirtable env pd w'
              = (Throw e,
                 logged env ("Error adding to Airtable: " ++ error_message e)
                   (called
                      [TableCreate "Failed Payments"
                         [airtable_fields pd
                            (Str.toUpperCase
                               (Stripe.currency (Stripe.data_object event)))
                            (clock env (ticks w'))]]
                      (ticked w')))).
    { intros w'. rewrite addToAirtable_run, Hc. cbn [toUpperCase_method].
      cbv zeta. now rewrite Hstore. }
    split; [| split].
    + intros w'. eexists. split; [apply Hrun |].
      rewrite last_messages_logged, last_messages_0 by lia. reflexivity.
    + rewrite webhook_stripe_run. cbv zeta. rewrite Hsig, Hrec.
      rewrite processFailedPayment_run, Hn, Hrun. reflexivity.
    + rewrite webhook_stripe_run. cbv zeta. rewrite Hsig, Hrec.
      rewrite processFailedPayment_run, Hn, Hrun. cbn [snd].
      rewrite !last_messages_logged, last_messages_0 by lia. reflexivity.
  - intros r rest Hstore.
    assert (Hrun : forall w',
              addToAirtable env pd w'
              = (Ok r,
                 logged env ("Added to Airtable: " ++ record_id r)
                   (called
                      [TableCreate "Failed Payments"
                         [airtable_fields pd
                            (Str.toUpperCase
                               (Stripe.currency (Stripe.data_object event)))
                            (clock env (ticks w'))]]
                      (ticked w')))).
    { intros w'. rewrite addToAirtable_run, Hc. cbn [toUpperCase_method].
      cbv zeta. now rewrite Hstore. }
    split.
    + rewrite webhook_stripe_run. cbv zeta. rewrite Hsig, Hrec.
      rewrite processFailedPayment_run, Hn, Hrun. reflexivity.
    + rewrite webhook_stripe_run. cbv zeta. rewrite Hsig, Hrec.
      rewrite processFailedPayment_run, Hn, Hrun. cbn [snd].
      rewrite !last_messages_logged, last_messages_0 by lia. reflexivity.
Qed.

(** C5. When the verifier throws, the route answers 400 with the error text,
    appends one entry about the verification error to the log, and the call
    to the verifier is the only call to a collaborator: nothing is sent to
    Gmail or to Airtable, and no entry of the Dispatcher, the Recorder or
    [processFailedPayment] is logged. *)
Theorem invalid_signature_is_rejected :
  forall env req w err,
    constructEvent env (List.length (calls w)) (body req)
      (header_lookup "stripe-signature" (headers req))
      (STRIPE_WEBHOOK_SECRET env) = Throw err ->
    let w' := snd (webhook_stripe env req w) in
    fst (webhook_stripe env req w)
    = Ok (mkResponse 400 (Send ("Webhook Error: " ++ error_message err)))
    /\ logs w'
       = slice_last 50
           (logs w
            ++ [mkLogEntry (JsDate.iso (clock env (ticks w)))
                  ("Webhook signature verification failed: "
                   ++ error_message err)])
    /\ console w'
       = (console w
          ++ [("[" ++ JsDate.iso (clock env (ticks w)) ++ "] "
               ++ "Webhook signature verification failed: "
               ++ error_message err)%string])%list
    /\ calls w'
       = (calls w
          ++ [ConstructEvent (body req)
                (header_lookup "stripe-signature" (headers req))
                (STRIPE_WEBHOOK_SECRET env)])%list
    /\ filter is_gmail_send (calls w') = filter is_gmail_send (calls w)
    /\ filter is_table_create (calls w') = filter is_table_create (calls w).
Proof.
  intros env req w err Hsig w'. subst w'.
  rewrite webhook_stripe_run. cbv zeta. rewrite Hsig. cbn [fst snd].
  split; [reflexivity |].
  split; [now rewrite logs_logged |].
  split; [reflexivity |].
  rewrite calls_logged. unfold called. cbn [calls].
  split; [reflexivity |].
  rewrite !filter_app. cbn [filter is_gmail_send is_table_create].
  now rewrite !app_nil_r.
Qed.

Lemma string_app_assoc (a b c : string) : (a ++ b) ++ c = a ++ b ++ c.
Proof. induction a as [| x a IH]; cbn; [reflexivity | now rewrite IH]. Qed.

Lemma div100_fraction z : div100 (Some z) = Fin (z * 1 # 100).
Proof. reflexivity. Qed.

Lemma nearest_hundredth a : 0 <= a -> (2 * 100 * a + 100) / (2 * 100) = a.
Proof.
  intros Ha. symmetry.
  apply (Z.div_unique _ _ a 100); lia.
Qed.

Lemma toFixed2_cents z : toFixed2 (div100 (Some z)) = cents_string z.
Proof.
  rewrite div100_fraction. unfold toFixed2, cents_string.
  cbn [Qnum Qden]. rewrite Z.mul_1_r.
  change (Z.pos 100) with 100.
  rewrite nearest_hundredth by lia. reflexivity.
Qed.

Lemma round2_cents z : round2 (z * 1 # 100) = (z # 100).
Proof.
  unfold round2. cbn [Qnum Qden]. rewrite Z.mul_1_r.
  change (Z.pos 100) with 100.
  rewrite nearest_hundredth by lia.
  destruct (Z.ltb_spec z 0); f_equal; lia.
Qed.

Lemma body_template_amount_line pd upper z :
  amount pd = Some z ->
  Str.contains (body_template pd upper)
    ("- Amount: $" ++ cents_string z ++ " " ++ upper ++ Str.nl).
Proof.
  intros Hz.
  exists (Str.nl
          ++ "Payment Failure Detected!" ++ Str.nl
          ++ Str.nl
          ++ "Details:" ++ Str.nl
          ++ "- Payment ID: " ++ to_str (payment_id pd) ++ Str.nl
          ++ "- Customer: " ++ to_str (customer_email pd) ++ Str.nl),
         ("- Failure Code: " ++ to_str (failure_code pd) ++ Str.nl
          ++ "- Failure Message: " ++ to_str (failure_message pd) ++ Str.nl
          ++ "- Date: " ++ to_str (failed_at pd) ++ Str.nl
          ++ Str.nl
          ++ "Please review and take appropriate action." ++ Str.nl
          ++ "    ").
  unfold body_template. rewrite Hz, toFixed2_cents.
  repeat rewrite string_app_assoc. reflexivity.
Qed.

Lemma processFailedPayment_calls env event pd w :
  Str.includes recognized_types (Stripe.type event) = true ->
  normalize event = Ok pd ->
  exists raw t,
    calls (snd (processFailedPayment env event w))
    = (calls w
       ++ [GmailSend "me" raw;
           TableCreate "Failed Payments"
             [airtable_fields pd
                (Str.toUpperCase (Stripe.currency (Stripe.data_object event)))
                t]])%list.
Proof.
  intros Hrec Hn.
  destruct (normalize_strings event pd Hrec Hn) as (_ & Hc & _).
  rewrite processFailedPayment_run, Hn.
  rewrite (sendGmailAlert_world env pd _ w Hc). cbv zeta.
  match goal with
  | |- context [addToAirtable env pd ?w1] => set (w1' := w1)
  end.
  assert (Hcalls : exists raw, calls w1' = (calls w ++ [GmailSend "me" raw])%list)
    by (eexists; reflexivity).
  destruct Hcalls as [raw Hcalls]. clearbody w1'.
  rewrite addToAirtable_run, Hc. cbn [toUpperCase_method]. cbv zeta.
  exists raw, (clock env (ticks w1')).
  destruct (table_create env _ _ _) as [[| record0 rest] | e];
    cbn [snd]; rewrite !calls_logged; unfold called, ticked; cbn [calls];
    rewrite Hcalls, <- app_assoc; reflexivity.
Qed.

(** ** The canonical record *)

Lemma body_template_amount pd upper z :
  amount pd = Some z ->
  Str.contains (body_template pd upper)
    ("- Amount: $" ++ cents_string z ++ " ").
Proof.
  intros Hz.
  exists (Str.nl
          ++ "Payment Failure Detected!" ++ Str.nl
          ++ Str.nl
          ++ "Details:" ++ Str.nl
          ++ "- Payment ID: " ++ to_str (payment_id pd) ++ Str.nl
          ++ "- Customer: " ++ to_str (customer_email pd) ++ Str.nl),
         (upper ++ Str.nl
          ++ "- Failure Code: " ++ to_str (failure_code pd) ++ Str.nl
          ++ "- Failure Message: " ++ to_str (failure_message pd) ++ Str.nl
          ++ "- Date: " ++ to_str (failed_at pd) ++ Str.nl
          ++ Str.nl
          ++ "Please review and take appropriate action." ++ Str.nl
          ++ "    ").
  unfold body_template. rewrite Hz, toFixed2_cents.
  repeat rewrite string_app_assoc. reflexivity.
Qed.

Lemma processFailedPayment_sends env event pd w :
  Str.includes recognized_types (Stripe.type event) = true ->
  normalize event = Ok pd ->
  exists t,
    calls (snd (processFailedPayment env event w))
    = (calls w
       ++ [GmailSend "me"
             (Base64.encode_url
                (alert_message env (alert_subject pd)
                   (body_template pd
                      (Str.toUpperCase
                         (Stripe.currency (Stripe.data_object event))))));
           TableCreate "Failed Payments"
             [airtable_fields pd
                (Str.toUpperCase (Stripe.currency (Stripe.data_object event)))
                t]])%list.
Proof.
  intros Hrec Hn.
  destruct (normalize_strings event pd Hrec Hn) as (_ & Hc & _).
  rewrite processFailedPayment_run, Hn.
  rewrite (sendGmailAlert_world env pd _ w Hc). cbv zeta.
  match goal with
  | |- context [addToAirtable env pd ?w1] => set (w1' := w1)
  end.
  assert (Hcalls : calls w1'
                   = (calls w
                      ++ [GmailSend "me"
                            (Base64.encode_url
                               (alert_message env (alert_subject pd)
                                  (body_template pd
                                     (Str.toUpperCase
                                        (Stripe.currency
                                           (Stripe.data_object event))))))])
                     %list) by reflexivity.
  clearbody w1'.
  rewrite addToAirtable_run, Hc. cbn [toUpperCase_method]. cbv zeta.
  exists (clock env (ticks w1')).
  destruct (table_create env _ _ _) as [[| record0 rest] | e];
    cbn [snd]; rewrite !calls_logged; unfold called, ticked; cbn [calls];
    rewrite Hcalls, <- app_assoc; reflexivity.
Qed.

(** C1. On a recognized event whose amount is at most [max_exact_cents] in
    magnitude, the record carries the integer of the source attribute
    ([amount], [amount_due], [amount]) unchanged, and it is in the sinks that
    the amount becomes major units, whatever the collaborators answer:
    [processFailedPayment] hands Gmail the message whose body prints the
    integer over 100 with two decimals, and hands the store a row whose
    Amount column is the quotient by 100, a value that rounding to two
    decimals leaves as it is. *)
Theorem amount_is_minor_units_until_rendered :
  forall env event pd w,
    Str.includes recognized_types (Stripe.type event) = true ->
    normalize event = Ok pd ->
    let z := source_amount event in
    Z.abs z <= max_exact_cents ->
    amount pd = Some z
    /\ toFixed2 (div100 (amount pd)) = cents_string z
    /\ exists text row,
         calls (snd (processFailedPayment env event w))
         = (calls w
            ++ [GmailSend "me"
                  (Base64.encode_url
                     (alert_message env (alert_subject pd) text));
                TableCreate "Failed Payments" [row]])%list
         /\ Str.contains text ("- Amount: $" ++ cents_string z ++ " ")
         /\ exists q,
              field "Amount" row = Some (FNum (Fin q))
              /\ q == z # 100
              /\ round2 q == q.
Proof.
  intros env event pd w Hrec Hn z _.
  assert (Hz : amount pd = Some z).
  { subst z. unfold source_amount. revert Hn.
    by_shape event Hrec;
      destruct (JsDate.toISOString (Stripe.created event * 1000));
      cbn [result_map]; intros Heq; inversion Heq; reflexivity. }
  split; [exact Hz | split; [rewrite Hz; apply toFixed2_cents |]].
  destruct (processFailedPayment_sends env event pd w Hrec Hn) as [t Hcalls].
  do 2 eexists. split; [exact Hcalls | split].
  - now apply body_template_amount.
  - exists (z * 1 # 100).
    split; [| split].
    + cbn [airtable_fields field String.eqb Ascii.eqb Bool.eqb].
      now rewrite Hz.
    + unfold Qeq. cbn [Qnum Qden]. lia.
    + rewrite round2_cents. unfold Qeq. cbn [Qnum Qden]. lia.
Qed.

(** C7. On a recognized event [failed_at] is the ISO-8601 rendering of
    [event.created * 1000] (and [normalize] throws exactly when that
    rendering does).  Whatever the wall clock reads and whatever the sinks
    answer, the row sent to the store carries that rendering in its
    Failed At column and the body of the alert in its Date line. *)
Theorem failed_at_is_event_time :
  forall event,
    Str.includes recognized_types (Stripe.type event) = true ->
    result_map failed_at (normalize event)
    = result_map JStr (JsDate.toISOString (Stripe.created event * 1000))
    /\ (forall iso,
          JsDate.toISOString (Stripe.created event * 1000) = Ok iso ->
          exists pd,
            normalize event = Ok pd
            /\ failed_at pd = JStr iso
            /\ (forall upper,
                  Str.contains (body_template pd upper)
                    ("- Date: " ++ iso ++ Str.nl))
            /\ (forall env w,
                  exists raw row,
                    calls (snd (processFailedPayment env event w))
                    = (calls w
                       ++ [GmailSend "me" raw;
                           TableCreate "Failed Payments" [row]])%list
                    /\ field "Failed At" row = Some (FVal (JStr iso)))).
Proof.
  intros event Hrec.
  assert (Hmap : result_map failed_at (normalize event)
                 = result_map JStr
                     (JsDate.toISOString (Stripe.created event * 1000))).
  { by_shape event Hrec;
      destruct (JsDate.toISOString (Stripe.created event * 1000));
      reflexivity. }
  split; [exact Hmap |].
  intros iso Hiso. rewrite Hiso in Hmap.
  destruct (normalize event) as [pd | e] eqn:Hn; [| discriminate].
  cbn [result_map] in Hmap. injection Hmap as Hat.
  exists pd. split; [reflexivity | split; [exact Hat | split]].
  - intros upper.
    exists (Str.nl
            ++ "Payment Failure Detected!" ++ Str.nl
            ++ Str.nl
            ++ "Details:" ++ Str.nl
            ++ "- Payment ID: " ++ to_str (payment_id pd) ++ Str.nl
            ++ "- Customer: " ++ to_str (customer_email pd) ++ Str.nl
            ++ "- Amount: $" ++ toFixed2 (div100 (amount pd)) ++ " "
            ++ upper ++ Str.nl
            ++ "- Failure Code: " ++ to_str (failure_code pd) ++ Str.nl
            ++ "- Failure Message: " ++ to_str (failure_message pd)
            ++ Str.nl),
           (Str.nl ++ "Please review and take appropriate action." ++ Str.nl
            ++ "    ").
    unfold body_template. rewrite Hat. cbn [to_str].
    repeat rewrite string_app_assoc. reflexivity.
  - intros env w.
    destruct (processFailedPayment_calls env event pd w Hrec Hn)
      as (raw & t & Hcalls).
    exists raw. eexists. split; [exact Hcalls |].
    cbn [airtable_fields field String.eqb Ascii.eqb Bool.eqb].
    now rewrite Hat.
Qed.

(** C10 as stated fails on a charge: an empty [receipt_email] gives way to
    the e-mail of the billing details, not to the default. *)
Lemma empty_receipt_email_falls_through :
  Str.includes recognized_types (Stripe.type Sample.charge_empty_receipt)
  = true
  /\ Stripe.receipt_email (Stripe.data_object Sample.charge_empty_receipt)
     = JStr EmptyString
  /\ result_map customer_email (normalize Sample.charge_empty_receipt)
     = Ok (JStr "a@b.com")
  /\ JStr "a@b.com" <> JStr "Unknown".
Proof. repeat split; try reflexivity. discriminate. Qed.

Lemma addToAirtable_sends env pd c w :
  currency pd = JStr c ->
  calls (snd (addToAirtable env pd w))
  = (calls w
     ++ [TableCreate "Failed Payments"
           [airtable_fields pd (Str.toUpperCase c) (clock env (ticks w))]])
    %list.
Proof.
  intros Hc. rewrite addToAirtable_run, Hc. cbn [toUpperCase_method].
  cbv zeta.
  destruct (table_create env _ _ _) as [[| record0 rest] | e];
    cbn [snd]; rewrite calls_logged; reflexivity.
Qed.

(** C10, amended.  The default replaces any falsy e-mail, the empty string
    included: on a payment intent a falsy [receipt_email], on an invoice a
    falsy [customer_email], on a charge a falsy [receipt_email] together with
    an absent [billing_details] or a falsy e-mail in it.  On a charge a falsy
    [receipt_email] otherwise gives way to the e-mail of the billing details.
    And whatever record the Recorder is given, from the normalizer or not:
    when its [customer_email] is falsy, the empty string included, the row
    that [addToAirtable] hands to the store has "Unknown" in the
    Customer Email column. *)
Theorem falsy_email_defaults_to_unknown :
  (forall event pd,
     normalize event = Ok pd ->
     let o := Stripe.data_object event in
     (Stripe.type event = "payment_intent.payment_failed" ->
      truthy (Stripe.receipt_email o) = false ->
      customer_email pd = JStr "Unknown")
     /\ (Stripe.type event = "invoice.payment_failed" ->
         truthy (Stripe.customer_email o) = false ->
         customer_email pd = JStr "Unknown")
     /\ (Stripe.type event = "charge.failed" ->
         truthy (Stripe.receipt_email o) = false ->
         truthy (opt_chain (Stripe.billing_details o) Stripe.email) = false ->
         customer_email pd = JStr "Unknown")
     /\ (Stripe.type event = "charge.failed" ->
         truthy (Stripe.receipt_email o) = false ->
         truthy (opt_chain (Stripe.billing_details o) Stripe.email) = true ->
         customer_email pd
         = opt_chain (Stripe.billing_details o) Stripe.email))
  /\ (forall env pd c w,
        currency pd = JStr c ->
        truthy (customer_email pd) = false ->
        exists row,
          calls (snd (addToAirtable env pd w))
          = (calls w ++ [TableCreate "Failed Payments" [row]])%list
          /\ field "Customer Email" row = Some (FVal (JStr "Unknown"))).
Proof.
  split.
  - intros event pd Hn o.
    repeat split.
    + intros Ht Hfalsy. revert Hn. unfold normalize. rewrite Ht.
      cbv beta iota delta [String.eqb Ascii.eqb Bool.eqb]. cbv beta iota.
      destruct (JsDate.toISOString (Stripe.created event * 1000));
        cbn [result_map]; intros Heq; inversion Heq; cbn [customer_email].
      unfold js_or. fold o. now rewrite Hfalsy.
    + intros Ht Hfalsy. revert Hn. unfold normalize. rewrite Ht.
      cbv beta iota delta [String.eqb Ascii.eqb Bool.eqb]. cbv beta iota.
      destruct (JsDate.toISOString (Stripe.created event * 1000));
        cbn [result_map]; intros Heq; inversion Heq; cbn [customer_email].
      unfold js_or. fold o. now rewrite Hfalsy.
    + intros Ht Hfalsy Hbilling. revert Hn. unfold normalize. rewrite Ht.
      cbv beta iota delta [String.eqb Ascii.eqb Bool.eqb]. cbv beta iota.
      destruct (JsDate.toISOString (Stripe.created event * 1000));
        cbn [result_map]; intros Heq; inversion Heq; cbn [customer_email].
      unfold js_or. fold o. now rewrite Hfalsy, Hbilling.
    + intros Ht Hfalsy Hbilling. revert Hn. unfold normalize. rewrite Ht.
      cbv beta iota delta [String.eqb Ascii.eqb Bool.eqb]. cbv beta iota.
      destruct (JsDate.toISOString (Stripe.created event * 1000));
        cbn [result_map]; intros Heq; inversion Heq; cbn [customer_email].
      unfold js_or. fold o. now rewrite Hfalsy, Hbilling.
  - intros env pd c w Hc Hfalsy. eexists.
    split; [apply (addToAirtable_sends env pd c w Hc) |].
    cbn [airtable_fields field String.eqb Ascii.eqb Bool.eqb].
    unfold js_or. now rewrite Hfalsy.
Qed.

(** ** Rendering in the sinks *)

Lemma siren_is_the_emoji : siren = "🚨".
Proof. reflexivity. Qed.

(** C8 fails in the Dispatcher.  The record of a payment intent without
    [last_payment_error] has neither failure code nor failure message: the
    Recorder writes "Unknown" into both columns, the body of the alert reads
    "undefined" in both lines. *)
Theorem absent_reason_defaults_only_in_recorder :
  normalize Sample.intent_failed = Ok Sample.record_without_reason
  /\ failure_code Sample.record_without_reason = JUndefined
  /\ failure_message Sample.record_without_reason = JUndefined
  /\ field "Failure Code"
       (airtable_fields Sample.record_without_reason "EUR" 0)
     = Some (FVal (JStr "Unknown"))
  /\ field "Failure Message"
       (airtable_fields Sample.record_without_reason "EUR" 0)
     = Some (FVal (JStr "Unknown"))
  /\ alert_body Sample.record_without_reason
     = Ok (Str.nl
           ++ "Payment Failure Detected!" ++ Str.nl
           ++ Str.nl
           ++ "Details:" ++ Str.nl
           ++ "- Payment ID: pi_1" ++ Str.nl
           ++ "- Customer: c@d.com" ++ Str.nl
           ++ "- Amount: $19.99 EUR" ++ Str.nl
           ++ "- Failure Code: undefined" ++ Str.nl
           ++ "- Failure Message: undefined" ++ Str.nl
           ++ "- Date: 2023-11-14T22:13:20.000Z" ++ Str.nl
           ++ Str.nl
           ++ "Please review and take appropriate action." ++ Str.nl
           ++ "    ").
Proof. repeat split; reflexivity. Qed.

(** On every record the lines of the reason are the plain renderings of the
    two properties; no default is applied. *)
Lemma body_template_reason_lines pd upper :
  Str.contains (body_template pd upper)
    ("- Failure Code: " ++ to_str (failure_code pd) ++ Str.nl
     ++ "- Failure Message: " ++ to_str (failure_message pd) ++ Str.nl).
Proof.
  exists (Str.nl
          ++ "Payment Failure Detected!" ++ Str.nl
          ++ Str.nl
          ++ "Details:" ++ Str.nl
          ++ "- Payment ID: " ++ to_str (payment_id pd) ++ Str.nl
          ++ "- Customer: " ++ to_str (customer_email pd) ++ Str.nl
          ++ "- Amount: $" ++ toFixed2 (div100 (amount pd)) ++ " "
          ++ upper ++ Str.nl),
         ("- Date: " ++ to_str (failed_at pd) ++ Str.nl
          ++ Str.nl
          ++ "Please review and take appropriate action." ++ Str.nl
          ++ "    ").
  unfold body_template. repeat rewrite string_app_assoc. reflexivity.
Qed.

(** C9 as stated fails: the subject starts with the siren emoji and a
    space. *)
Lemma subject_is_not_the_bare_text :
  alert_subject Sample.test_record
  = "🚨 Payment Failed Alert - test@example.com"
  /\ alert_subject Sample.test_record
     <> "Payment Failed Alert - "
        ++ to_str (customer_email Sample.test_record).
Proof. split; [reflexivity | discriminate]. Qed.

(** C9, amended.  On a record with an ASCII currency and an amount of at
    most [max_exact_cents] in magnitude the Dispatcher makes one call to
    Gmail, with the base64url encoding of the message whose Subject header is
    the siren emoji, a space and "Payment Failed Alert - {customer_email}",
    and whose body carries the amount over 100 with two decimals followed by
    the upper-cased currency. *)
Theorem alert_subject_and_amount_line :
  forall env pd w c z,
    currency pd = JStr c ->
    is_ascii_text c = true ->
    amount pd = Some z ->
    Z.abs z <= max_exact_cents ->
    exists body_text,
      calls (snd (sendGmailAlert env pd w))
      = (calls w
         ++ [GmailSend "me"
               (Base64.encode_url
                  (Str.join Str.nl
                     [ ("Content-Type: text/plain; charset=" ++ Str.dquote
                        ++ "UTF-8" ++ Str.dquote)%string;
                       "MIME-Version: 1.0"%string;
                       ("To: "
                        ++ to_str
                             (js_or (ALERT_EMAIL env)
                                (JStr "admin@example.com")))%string;
                       ("Subject: 🚨 Payment Failed Alert - "
                        ++ to_str (customer_email pd))%string;
                       EmptyString;
                       body_text ]))])%list
      /\ Str.contains body_text
           ("- Amount: $" ++ cents_string z ++ " " ++ Str.toUpperCase c
            ++ Str.nl).
Proof.
  intros env pd w c z Hc _ Hz _.
  exists (body_template pd (Str.toUpperCase c)).
  split; [| now apply body_template_amount_line].
  rewrite (sendGmailAlert_world env pd c w Hc). cbv zeta.
  rewrite calls_logged. reflexivity.
Qed.

(** ** The middleware in front of the route *)

(** A JSON request never reaches the route with its raw body: the JSON parser
    runs first and the raw parser leaves a parsed request alone. *)
Lemma json_request_body_is_parsed env req req' text :
  body_parsed req = false ->
  payload req = Some text ->
  has_type "application/json" req = true ->
  middleware env req = inl req' ->
  exists j, body req' = BodyObject j.
Proof.
  intros Hp Hpay Hty. unfold middleware, express_json.
  rewrite Hp. cbv zeta.
  change (payload (set_body (or_empty_object env (body req)) false req))
    with (payload req).
  change (has_type "application/json"
            (set_body (or_empty_object env (body req)) false req))
    with (has_type "application/json" req).
  rewrite Hpay, Hty. cbn [negb].
  destruct (negb (String.prefix "utf-" _)); [discriminate |].
  destruct (read_body env _ text) as [read | response]; [| discriminate].
  destruct (strict_parse env _) as [j |]; [| discriminate].
  unfold express_raw. cbn [body_parsed set_body].
  intros Heq. inversion Heq. exists j. reflexivity.
Qed.

(** C2 fails in the code.  The signed request of Stripe arrives at the route
    with a parsed object as its body, the verifier rejects it and the route
    answers 400; the same route given the raw bytes verifies the request and
    answers 200. *)
Theorem signed_request_arrives_parsed :
  let env :=
    Sample.env Sample.charge_failed Sample.gmail_up Sample.airtable_up in
  result_map (fun _ => tt)
    (Sample.verifier Sample.charge_failed 0 (BodyBuffer Sample.wire_payload)
       (JStr "t=1,v1=abc") (JStr "whsec_test"))
  = Ok tt
  /\ middleware env Sample.signed_request
     = inl (mkRequest (Some "application/json") (Some "utf-8")
              Sample.signed_headers (Some Sample.wire_payload)
              (BodyObject (JsonObj [])) true)
  /\ fst (app_post_webhook_stripe env Sample.signed_request Sample.world)
     = Ok (mkResponse 400
             (Send ("Webhook Error: "
                    ++ "Webhook payload must be provided as a string or a Buffer.")))
  /\ calls (snd (app_post_webhook_stripe env Sample.signed_request
                   Sample.world))
     = [ConstructEvent (BodyObject (JsonObj [])) (JStr "t=1,v1=abc")
          (JStr "whsec_test")]
  /\ fst (webhook_stripe env Sample.raw_request Sample.world) = Ok received.
Proof. repeat split; reflexivity. Qed.

(** ** The theorems at sample inputs *)

Lemma amount_is_minor_units_witness :
  amount Sample.charge_record = Some 2500
  /\ toFixed2 (div100 (amount Sample.charge_record)) = "25.00".
Proof.
  refine (let H := amount_is_minor_units_until_rendered
                     (Sample.env Sample.charge_failed Sample.gmail_up
                        Sample.airtable_up)
                     Sample.charge_failed Sample.charge_record Sample.world
                     eq_refl eq_refl _ in
          conj (proj1 H) (proj1 (proj2 H))).
  vm_compute. discriminate.
Defined.

Lemma dispatcher_contains_failures_witness :
  let env :=
    Sample.env Sample.charge_failed Sample.gmail_down Sample.airtable_up in
  fst (addToAirtable env Sample.charge_record
         (snd (sendGmailAlert env Sample.charge_record Sample.world)))
  = Ok (mkAirtableRecord "rec1").
Proof.
  exact (proj1 (proj2
    (proj2 (proj2
       (dispatcher_contains_failures
          (Sample.env Sample.charge_failed Sample.gmail_down
             Sample.airtable_up)))
       Sample.charge_failed Sample.charge_record Sample.world
       (mkError "invalid_grant") (mkAirtableRecord "rec1") []
       eq_refl eq_refl (fun _ _ _ => eq_refl) (fun _ _ _ => eq_refl)))).
Defined.

Lemma recorder_outcome_witness :
  fst (webhook_stripe
         (Sample.env Sample.charge_failed Sample.gmail_up Sample.airtable_down)
         Sample.raw_request Sample.world)
  = Ok (mkResponse 500 (Send "Internal Server Error"))
  /\ fst (webhook_stripe
            (Sample.env Sample.charge_failed Sample.gmail_up
               Sample.airtable_up)
            Sample.raw_request Sample.world)
     = Ok received.
Proof.
  split.
  - exact (proj1 (proj2
      (proj1
         (recorder_outcome_decides_response
            (Sample.env Sample.charge_failed Sample.gmail_up
               Sample.airtable_down)
            Sample.raw_request Sample.world Sample.charge_failed
            Sample.charge_record eq_refl eq_refl eq_refl)
         (mkError "NOT_FOUND") (fun _ _ _ => eq_refl)))).
  - exact (proj1
      (proj2
         (recorder_outcome_decides_response
            (Sample.env Sample.charge_failed Sample.gmail_up
               Sample.airtable_up)
            Sample.raw_request Sample.world Sample.charge_failed
            Sample.charge_record eq_refl eq_refl eq_refl)
         (mkAirtableRecord "rec1") [] (fun _ _ _ => eq_refl))).
Defined.

Lemma invalid_signature_witness :
  fst (webhook_stripe
         (Sample.env Sample.charge_failed Sample.gmail_up Sample.airtable_up)
         Sample.unsigned_request Sample.world)
  = Ok (mkResponse 400
          (Send ("Webhook Error: "
                 ++ "No stripe-signature header value was provided."))).
Proof.
  exact (proj1
    (invalid_signature_is_rejected
       (Sample.env Sample.charge_failed Sample.gmail_up Sample.airtable_up)
       Sample.unsigned_request Sample.world
       (mkError "No stripe-signature header value was provided.") eq_refl)).
Defined.

Lemma failed_at_is_event_time_witness :
  result_map failed_at (normalize Sample.charge_failed)
  = result_map JStr (JsDate.toISOString (1700000000 * 1000)).
Proof.
  exact (proj1 (failed_at_is_event_time Sample.charge_failed eq_refl)).
Defined.

Lemma falsy_email_witness :
  customer_email Sample.invoice_record = JStr "Unknown"
  /\ exists row,
       calls (snd (addToAirtable
                     (Sample.env Sample.charge_failed Sample.gmail_up
                        Sample.airtable_up)
                     Sample.record_empty_email Sample.world))
       = [TableCreate "Failed Payments" [row]]
       /\ field "Customer Email" row = Some (FVal (JStr "Unknown")).
Proof.
  split.
  - exact (proj1 (proj2
      (proj1 falsy_email_defaults_to_unknown Sample.invoice_failed
         Sample.invoice_record eq_refl)) eq_refl eq_refl).
  - exact (proj2 falsy_email_defaults_to_unknown
             (Sample.env Sample.charge_failed Sample.gmail_up
                Sample.airtable_up)
             Sample.record_empty_email "usd" Sample.world eq_refl eq_refl).
Defined.

Lemma alert_subject_witness :
  exists body_text,
    calls (snd (sendGmailAlert
                  (Sample.env Sample.charge_failed Sample.gmail_up
                     Sample.airtable_up)
                  Sample.test_record Sample.world))
    = [GmailSend "me"
         (Base64.encode_url
            (Str.join Str.nl
               [ ("Content-Type: text/plain; charset=" ++ Str.dquote
                  ++ "UTF-8" ++ Str.dquote)%string;
                 "MIME-Version: 1.0"%string;
                 "To: admin@example.com"%string;
                 "Subject: 🚨 Payment Failed Alert - test@example.com"%string;
                 EmptyString;
                 body_text ]))]
    /\ Str.contains body_text ("- Amount: $25.00 USD" ++ Str.nl).
Proof.
  refine (alert_subject_and_amount_line
            (Sample.env Sample.charge_failed Sample.gmail_up
               Sample.airtable_up)
            Sample.test_record Sample.world "usd" 2500 eq_refl eq_refl
            eq_refl _).
  vm_compute. discriminate.
Defined.

(** * Further properties of the application *)

(** ** Worlds only grow *)

Lemma grows_trans env w1 w2 w3 :
  grows env w1 w2 -> grows env w2 w3 -> grows env w1 w3.
Proof.
  intros H12 H23. induction H23 as [| w' w'' m _ IH | w' w'' c _ IH | w' w'' _ IH].
  - exact H12.
  - apply grows_logged, IH, H12.
  - apply grows_called, IH, H12.
  - apply grows_ticked, IH, H12.
Qed.

Section Steady.

Variable env : Collaborators.

Lemma steady_ret {A : Type} (a : A) : steady env (ret a).
Proof. intros w. apply grows_refl. Qed.

Lemma steady_throw {A : Type} (e : Error) : steady env (@throw A e).
Proof. intros w. apply grows_refl. Qed.

Lemma steady_lift {A : Type} (r : Result A) : steady env (lift r).
Proof. intros w. apply grows_refl. Qed.

Lemma steady_now : steady env (now env).
Proof. intros w. apply (grows_ticked env w w), grows_refl. Qed.

Lemma steady_call {A : Type} (c : Call) (answer : nat -> Result A) :
  steady env (call c answer).
Proof. intros w. apply (grows_called env w w [c]), grows_refl. Qed.

Lemma steady_addLog m : steady env (addLog env m).
Proof.
  intros w. rewrite addLog_run. apply (grows_logged env w w), grows_refl.
Qed.

Lemma steady_bind {A B : Type} (m : M A) (k : A -> M B) :
  steady env m -> (forall a, steady env (k a)) -> steady env (bind m k).
Proof.
  intros Hm Hk w. unfold bind. specialize (Hm w).
  destruct (m w) as [[a | e] w1]; cbn [snd] in *.
  - eapply grows_trans; [exact Hm | apply Hk].
  - exact Hm.
Qed.

Lemma steady_try_catch {A : Type} (m : M A) (h : Error -> M A) :
  steady env m -> (forall e, steady env (h e)) -> steady env (try_catch m h).
Proof.
  intros Hm Hh w. unfold try_catch. specialize (Hm w).
  destruct (m w) as [[a | e] w1]; cbn [snd] in *.
  - exact Hm.
  - eapply grows_trans; [exact Hm | apply Hh].
Qed.

Create HintDb steady discriminated.

Hint Resolve steady_ret steady_throw steady_lift steady_now steady_call
  steady_addLog : steady.

Ltac steady_steps :=
  repeat first
    [ progress (lazy zeta)
    | solve [auto with steady]
    | apply steady_try_catch
    | apply steady_bind
    | lazymatch goal with
      | |- steady _ _ => fail
      | |- forall _, _ => intro
      end ].

Lemma steady_sendGmailAlert pd : steady env (sendGmailAlert env pd).
Proof. unfold sendGmailAlert. steady_steps. Qed.

Lemma steady_addToAirtable pd : steady env (addToAirtable env pd).
Proof.
  unfold addToAirtable. steady_steps.
  match goal with
  | |- steady env (match ?l with _ => _ end) => destruct l
  end; steady_steps.
Qed.

Hint Resolve steady_sendGmailAlert steady_addToAirtable : steady.

Lemma steady_processFailedPayment event :
  steady env (processFailedPayment env event).
Proof. unfold processFailedPayment. steady_steps. Qed.

Hint Resolve steady_processFailedPayment : steady.

Lemma steady_webhook_stripe req : steady env (webhook_stripe env req).
Proof.
  unfold webhook_stripe. steady_steps.
  match goal with
  | |- steady env (match ?v with _ => _ end) => destruct v as [event | response]
  end; steady_steps.
  - destruct (Str.includes recognized_types (Stripe.type event));
      steady_steps.
  - match goal with
    | |- steady env (match ?v with _ => _ end) => destruct v
    end; steady_steps.
Qed.

Lemma steady_post_test : steady env (post_test env).
Proof. unfold post_test. steady_steps. Qed.

Lemma steady_serve r : steady env (serve env r).
Proof.
  unfold serve.
  destruct (middleware env (request_of r)) as [req1 | response].
  - destruct r as [req | req | req | req | req].
    + apply steady_ret.
    + unfold get_health. steady_steps.
    + intros w. apply grows_refl.
    + apply steady_post_test.
    + apply steady_webhook_stripe.
  - apply steady_ret.
Qed.

Lemma grows_serve_all requests :
  forall w, grows env w (serve_all env requests w).
Proof.
  induction requests as [| r rest IH]; intros w; cbn [serve_all].
  - apply grows_refl.
  - eapply grows_trans; [apply steady_serve | apply IH].
Qed.

End Steady.

(** ** What growth preserves *)

Lemma slice_last_map {A B : Type} (f : A -> B) n (l : list A) :
  map f (slice_last n l) = slice_last n (map f l).
Proof. unfold slice_last. now rewrite length_map, skipn_map. Qed.

Lemma entry_line_logged env m w :
  console (logged env m w)
  = (console w
     ++ [entry_line (mkLogEntry (JsDate.iso (clock env (ticks w))) m)])%list.
Proof. reflexivity. Qed.

Lemma mirrors_logged env m w :
  log_mirrors_console w -> log_mirrors_console (logged env m w).
Proof.
  intros [Hlen Hmap]. split; [apply logs_logged_bound |].
  rewrite entry_line_logged, logs_logged.
  set (e := mkLogEntry (JsDate.iso (clock env (ticks w))) m).
  rewrite slice_last_map, map_app, Hmap. cbn [map].
  rewrite <- slice_last_snoc, slice_last_length, last_length.
  destruct (Nat.le_gt_cases (S (List.length (logs w))) 50) as [Hle | Hgt].
  - rewrite Nat.min_r by lia.
    apply slice_last_short. rewrite slice_last_length. lia.
  - rewrite Nat.min_l by lia. apply slice_last_twice. lia.
Qed.

Lemma mirrors_grows env w w' :
  grows env w w' -> log_mirrors_console w -> log_mirrors_console w'.
Proof.
  intros Hg Hw. induction Hg as [| w' w'' m _ IH | w' w'' c _ IH | w' w'' _ IH].
  - exact Hw.
  - apply mirrors_logged, IH, Hw.
  - apply IH, Hw.
  - apply IH, Hw.
Qed.

Lemma console_grows env w w' :
  grows env w w' -> exists lines, console w' = (console w ++ lines)%list.
Proof.
  intros Hg. induction Hg as [| w' w'' m _ IH | w' w'' c _ IH | w' w'' _ IH].
  - exists []. now rewrite app_nil_r.
  - destruct IH as [lines IH]. eexists.
    rewrite entry_line_logged, IH, <- app_assoc. reflexivity.
  - exact IH.
  - exact IH.
Qed.

Lemma calls_grows env w w' :
  grows env w w' -> exists more, calls w' = (calls w ++ more)%list.
Proof.
  intros Hg. induction Hg as [| w' w'' m _ IH | w' w'' c _ IH | w' w'' _ IH].
  - exists []. now rewrite app_nil_r.
  - exact IH.
  - destruct IH as [more IH]. exists (more ++ c)%list.
    unfold called. cbn [calls]. now rewrite IH, app_assoc.
  - exact IH.
Qed.

Lemma logs_stay_nonempty env w w' :
  grows env w w' ->
  (1 <= List.length (logs w))%nat -> (1 <= List.length (logs w'))%nat.
Proof.
  intros Hg Hw. induction Hg as [| w' w'' m _ IH | w' w'' c _ IH | w' w'' _ IH].
  - exact Hw.
  - rewrite logs_logged, slice_last_length, last_length. lia.
  - apply IH, Hw.
  - apply IH, Hw.
Qed.

(** X1. In every world a process reaches by serving requests after its
    start, the log holds between 1 and 50 entries, these are the entries
    printed by the last lines of the console, and the console still begins
    with the line of the start. *)
Theorem reachable_log_mirrors_console :
  forall env PORT requests,
    let w := serve_all env requests (started env PORT) in
    (1 <= List.length (logs w) <= 50)%nat
    /\ map entry_line (logs w) = slice_last (List.length (logs w)) (console w)
    /\ exists lines,
         console w
         = ("[" ++ JsDate.iso (clock env 0) ++ "] "
            ++ "Payment Monitor started on port " ++ port_text PORT)
           :: lines.
Proof.
  intros env PORT requests w.
  assert (Hg : grows env (started env PORT) w) by apply grows_serve_all.
  assert (Hstart : started env PORT
                   = logged env
                       ("Payment Monitor started on port " ++ port_text PORT)
                       (mkWorld [] [] 0 [])) by reflexivity.
  assert (Hinv : log_mirrors_console (started env PORT)).
  { rewrite Hstart. apply mirrors_logged. split; cbn; [lia | reflexivity]. }
  destruct (mirrors_grows env _ _ Hg Hinv) as [Hlen Hmap].
  split; [split; [| exact Hlen] | split; [exact Hmap |]].
  - apply (logs_stay_nonempty env _ _ Hg).
    rewrite Hstart, logs_logged, slice_last_length. cbn. lia.
  - destruct (console_grows env _ _ Hg) as [lines Hc].
    exists lines. rewrite Hc, Hstart. reflexivity.
Qed.

(** ** The routes, step by step *)

Lemma post_test_run env w :
  post_test env w
  = let td := test_data (clock env (ticks w)) (clock env (S (ticks w))) in
    match addToAirtable env td
            (snd (sendGmailAlert env td (ticked (ticked w)))) with
    | (Ok _, w2) =>
        (Ok (mkResponse 200
               (SendJson
                  (JsonObj [("success", JsonBool true);
                            ("message", JsonStr "Test completed");
                            ("testData", json_of_payment td)]))),
         w2)
    | (Throw e, w2) =>
        (Ok (mkResponse 500
               (SendJson
                  (JsonObj [("success", JsonBool false);
                            ("error", JsonStr (error_message e))]))),
         w2)
    end.
Proof.
  unfold post_test, try_catch, bind, now, ret. cbv zeta. cbn [ticks].
  fold (test_data (clock env (ticks w)) (clock env (S (ticks w)))).
  set (td := test_data (clock env (ticks w)) (clock env (S (ticks w)))).
  match goal with
  | |- context [sendGmailAlert env td ?x] => change x with (ticked (ticked w))
  end.
  pose proof (sendGmailAlert_returns env td (ticked (ticked w))) as Hret.
  destruct (sendGmailAlert env td (ticked (ticked w))) as [[[] | e] w1];
    [| discriminate].
  cbn [snd].
  destruct (addToAirtable env td w1) as [[r | e] w2]; reflexivity.
Qed.

Lemma sinks_calls env pd c w :
  currency pd = JStr c ->
  exists raw t,
    calls (snd (addToAirtable env pd (snd (sendGmailAlert env pd w))))
    = (calls w
       ++ [GmailSend "me" raw;
           TableCreate "Failed Payments"
             [airtable_fields pd (Str.toUpperCase c) t]])%list.
Proof.
  intros Hc. rewrite (sendGmailAlert_world env pd c w Hc). cbv zeta.
  match goal with
  | |- context [addToAirtable env pd ?w1] => set (w1' := w1)
  end.
  assert (Hcalls : exists raw,
            calls w1' = (calls w ++ [GmailSend "me" raw])%list)
    by (eexists; reflexivity).
  destruct Hcalls as [raw Hcalls]. clearbody w1'.
  rewrite addToAirtable_run, Hc. cbn [toUpperCase_method]. cbv zeta.
  exists raw, (clock env (ticks w1')).
  destruct (table_create env _ _ _) as [[| record0 rest] | e];
    cbn [snd]; rewrite !calls_logged; unfold called, ticked; cbn [calls];
    rewrite Hcalls, <- app_assoc; reflexivity.
Qed.

Lemma addToAirtable_answered env pd c w r rest :
  currency pd = JStr c ->
  (forall i t rows, table_create env i t rows = Ok (r :: rest)) ->
  fst (addToAirtable env pd w) = Ok r.
Proof.
  intros Hc Hstore. rewrite addToAirtable_run, Hc.
  cbn [toUpperCase_method]. cbv zeta. now rewrite Hstore.
Qed.

Lemma addToAirtable_refused env pd c w e :
  currency pd = JStr c ->
  (forall i t rows, table_create env i t rows = Throw e) ->
  fst (addToAirtable env pd w) = Throw e.
Proof.
  intros Hc Hstore. rewrite addToAirtable_run, Hc.
  cbn [toUpperCase_method]. cbv zeta. now rewrite Hstore.
Qed.

(** ** [POST /test] *)

(** X7. When the store answers with a record, [POST /test] answers 200 with
    [success: true] and the test record, whose id is "test_" followed by the
    reading of the clock, and it has made one call to Gmail and then one to
    the store with the row of that record, whether Gmail accepted the
    message or threw. *)
Theorem test_run_succeeds_when_store_answers :
  forall env w r rest,
    (forall i t rows, table_create env i t rows = Ok (r :: rest)) ->
    let td := test_data (clock env (ticks w)) (clock env (S (ticks w))) in
    fst (post_test env w)
    = Ok (mkResponse 200
            (SendJson
               (JsonObj
                  [("success", JsonBool true);
                   ("message", JsonStr "Test completed");
                   ("testData",
                    JsonObj
                      [("payment_id",
                        JsonStr ("test_" ++ Str.of_Z (clock env (ticks w))));
                       ("customer_email", JsonStr "test@example.com");
                       ("amount", JsonNum 2500);
                       ("currency", JsonStr "usd");
                       ("failure_code", JsonStr "card_declined");
                       ("failure_message",
                        JsonStr "Your card was declined.");
                       ("failed_at",
                        JsonStr (JsDate.iso (clock env (S (ticks w)))))])])))
    /\ exists raw t,
         calls (snd (post_test env w))
         = (calls w
            ++ [GmailSend "me" raw;
                TableCreate "Failed Payments"
                  [airtable_fields td "USD" t]])%list.
Proof.
  intros env w r rest Hstore td.
  pose proof (addToAirtable_answered env td "usd"
                (snd (sendGmailAlert env td (ticked (ticked w)))) r rest
                eq_refl Hstore) as Hok.
  destruct (sinks_calls env td "usd" (ticked (ticked w)) eq_refl)
    as (raw & t & Hcalls).
  rewrite post_test_run. cbv zeta. fold td.
  destruct (addToAirtable env td
              (snd (sendGmailAlert env td (ticked (ticked w)))))
    as [[r' | e] w2]; [| discriminate].
  split; [reflexivity |].
  exists raw, t. exact Hcalls.
Qed.

(** X8. When the store throws, [POST /test] answers 500 with
    [success: false] and the message of the error; nothing is thrown to the
    framework. *)
Theorem test_run_reports_store_failure :
  forall env w e,
    (forall i t rows, table_create env i t rows = Throw e) ->
    fst (post_test env w)
    = Ok (mkResponse 500
            (SendJson
               (JsonObj [("success", JsonBool false);
                         ("error", JsonStr (error_message e))]))).
Proof.
  intros env w e Hstore.
  pose proof (addToAirtable_refused env
                (test_data (clock env (ticks w)) (clock env (S (ticks w))))
                "usd"
                (snd (sendGmailAlert env
                        (test_data (clock env (ticks w))
                           (clock env (S (ticks w))))
                        (ticked (ticked w)))) e eq_refl Hstore) as Hno.
  rewrite post_test_run. cbv zeta.
  destruct (addToAirtable env _ _) as [[r' | e'] w2]; [discriminate |].
  cbn [fst] in *. now injection Hno as ->.
Qed.

(** ** [POST /webhook/stripe], the remaining paths *)

Lemma webhook_stripe_answers env req w :
  exists response,
    fst (webhook_stripe env req w) = Ok response
    /\ In (status response) [200; 400; 500].
Proof.
  rewrite webhook_stripe_run. cbv zeta.
  destruct (constructEvent env _ _ _ _) as [event | err].
  - destruct (Str.includes recognized_types (Stripe.type event)).
    + destruct (processFailedPayment env event _) as [[[] | e] w1];
        eexists; (split; [reflexivity | cbn; auto]).
    + eexists; (split; [reflexivity | cbn; auto]).
  - eexists; (split; [reflexivity | cbn; auto]).
Qed.

Lemma read_body_rejects env req bytes response :
  read_body env req bytes = inr response ->
  res_body response = ErrorPage /\ In (status response) [400; 413; 415].
Proof.
  unfold read_body. cbv zeta.
  match goal with
  | |- context [match ?stream with InflatedTo _ => _ | _ => _ end] =>
      destruct stream as [read | | produced]
  end.
  - destruct (body_limit <? _); [| discriminate].
    intros Heq. inversion Heq. cbn. auto.
  - intros Heq. inversion Heq. cbn. auto.
  - destruct (body_limit <? _); intros Heq; inversion Heq; cbn; auto.
Qed.

Lemma express_json_rejects env req response :
  express_json env req = inr response ->
  res_body response = ErrorPage /\ In (status response) [400; 413; 415].
Proof.
  unfold express_json.
  destruct (body_parsed req); [discriminate |]. cbv zeta.
  destruct (payload _) as [bytes |]; [| discriminate].
  destruct (negb (has_type _ _)); [discriminate |].
  destruct (negb (String.prefix _ _)).
  - intros Heq. inversion Heq. cbn. auto.
  - destruct (read_body env _ bytes) as [read | r] eqn:Hread.
    + destruct (strict_parse env _); [discriminate |].
      intros Heq. inversion Heq. cbn. auto.
    + intros Heq. inversion Heq. subst.
      exact (read_body_rejects env _ bytes response Hread).
Qed.

Lemma express_raw_rejects env t req response :
  express_raw env t req = inr response ->
  res_body response = ErrorPage /\ In (status response) [400; 413; 415].
Proof.
  unfold express_raw.
  destruct (body_parsed req); [discriminate |]. cbv zeta.
  destruct (payload _) as [bytes |]; [| discriminate].
  destruct (negb (has_type _ _)); [discriminate |].
  destruct (read_body env _ bytes) as [read | r] eqn:Hread; [discriminate |].
  intros Heq. inversion Heq. subst.
  exact (read_body_rejects env _ bytes response Hread).
Qed.

Lemma middleware_rejects env req response :
  middleware env req = inr response ->
  res_body response = ErrorPage /\ In (status response) [400; 413; 415].
Proof.
  unfold middleware.
  destruct (express_json env req) as [req1 | r] eqn:Hj.
  - apply express_raw_rejects.
  - intros Heq. inversion Heq. subst. now apply (express_json_rejects env req).
Qed.

(** X2. The application answers every request to every route in every
    world: the body parsers in front of the routes answer 400, 413 or 415
    and leave the world as it is, or the handler answers 200, 400 or 500; no
    exception leaves a handler, whatever the collaborators do. *)
Theorem every_request_is_answered :
  forall env r w,
    exists response,
      fst (serve env r w) = Ok response
      /\ In (status response) [200; 400; 413; 415; 500]
      /\ (middleware env (request_of r) = inr response ->
          snd (serve env r w) = w /\ res_body response = ErrorPage).
Proof.
  intros env r w. unfold serve.
  destruct (middleware env (request_of r)) as [req1 | response] eqn:Hm.
  - assert (Hh : exists response,
              fst (match r with
                   | GetRoot _ => get_root
                   | GetHealth _ => get_health env
                   | GetLogs _ => get_logs
                   | PostTest _ => post_test env
                   | PostWebhookStripe _ => webhook_stripe env req1
                   end w) = Ok response
              /\ In (status response) [200; 400; 500]).
    { destruct r as [req | req | req | req | req].
      - eexists. split; [reflexivity | cbn; auto].
      - eexists. split; [reflexivity | cbn; auto].
      - eexists. split; [reflexivity | cbn; auto].
      - rewrite post_test_run. cbv zeta.
        destruct (addToAirtable env _ _) as [[r' | e] w2];
          eexists; (split; [reflexivity | cbn; auto]).
      - apply webhook_stripe_answers. }
    destruct Hh as (response & Hr & Hs).
    exists response. split; [exact Hr | split; [| discriminate]].
    cbn in Hs |- *. intuition.
  - exists response. split; [reflexivity |].
    destruct (middleware_rejects env _ response Hm) as [Hb Hs].
    split; [cbn in Hs |- *; intuition |].
    intros _. split; [reflexivity | exact Hb].
Qed.

(** X3. A verified event of a type other than the three processed ones is
    acknowledged with 200 [{received: true}]: nothing is logged, nothing is
    printed, and the call to the verifier stays the only call. *)
Theorem other_event_types_are_acknowledged :
  forall env req w event,
    constructEvent env (List.length (calls w)) (body req)
      (header_lookup "stripe-signature" (headers req))
      (STRIPE_WEBHOOK_SECRET env) = Ok event ->
    Str.includes recognized_types (Stripe.type event) = false ->
    let w' := snd (webhook_stripe env req w) in
    fst (webhook_stripe env req w) = Ok received
    /\ logs w' = logs w
    /\ console w' = console w
    /\ ticks w' = ticks w
    /\ calls w'
       = (calls w
          ++ [ConstructEvent (body req)
                (header_lookup "stripe-signature" (headers req))
                (STRIPE_WEBHOOK_SECRET env)])%list.
Proof.
  intros env req w event Hsig Hother w'. subst w'.
  rewrite webhook_stripe_run. cbv zeta. rewrite Hsig, Hother.
  repeat split.
Qed.

Lemma normalize_follows_date event :
  Str.includes recognized_types (Stripe.type event) = true ->
  match JsDate.toISOString (Stripe.created event * 1000) with
  | Ok _ => exists pd, normalize event = Ok pd
  | Throw e => normalize event = Throw e
  end.
Proof.
  intros Hrec.
  by_shape event Hrec;
    destruct (JsDate.toISOString (Stripe.created event * 1000));
    cbn [result_map]; eauto.
Qed.

(** X4. On a recognized event [normalize] yields a record whenever
    [created * 1000] lies in the range of [Date].  Outside that range the
    route answers 500, the log ends with the two entries about the invalid
    time value, and neither Gmail nor the store is called. *)
Theorem event_time_out_of_range_is_500 :
  forall env req w event,
    constructEvent env (List.length (calls w)) (body req)
      (header_lookup "stripe-signature" (headers req))
      (STRIPE_WEBHOOK_SECRET env) = Ok event ->
    Str.includes recognized_types (Stripe.type event) = true ->
    (- JsDate.max_time <= Stripe.created event * 1000 <= JsDate.max_time ->
     exists pd, normalize event = Ok pd)
    /\ (Stripe.created event * 1000 < - JsDate.max_time
        \/ JsDate.max_time < Stripe.created event * 1000 ->
        let w' := snd (webhook_stripe env req w) in
        fst (webhook_stripe env req w)
        = Ok (mkResponse 500 (Send "Internal Server Error"))
        /\ last_messages 2 w'
           = ["Error processing failed payment: Invalid time value";
              "Error processing webhook: Invalid time value"]
        /\ calls w'
           = (calls w
              ++ [ConstructEvent (body req)
                    (header_lookup "stripe-signature" (headers req))
                    (STRIPE_WEBHOOK_SECRET env)])%list).
Proof.
  intros env req w event Hsig Hrec.
  pose proof (normalize_follows_date event Hrec) as Hn.
  unfold JsDate.toISOString in Hn.
  split.
  - intros Hin.
    replace (andb (- JsDate.max_time <=? Stripe.created event * 1000)
                  (Stripe.created event * 1000 <=? JsDate.max_time))
      with true in Hn; [exact Hn |].
    symmetry. apply andb_true_iff. split; apply Z.leb_le; lia.
  - intros Hout w'. subst w'.
    replace (andb (- JsDate.max_time <=? Stripe.created event * 1000)
                  (Stripe.created event * 1000 <=? JsDate.max_time))
      with false in Hn.
    2:{ symmetry. apply andb_false_iff.
        destruct Hout; [left | right]; apply Z.leb_gt; lia. }
    rewrite webhook_stripe_run. cbv zeta. rewrite Hsig, Hrec.
    rewrite processFailedPayment_run, Hn. cbn [fst snd].
    split; [reflexivity | split].
    + rewrite !last_messages_logged, last_messages_0 by lia. reflexivity.
    + rewrite !calls_logged. reflexivity.
Qed.

(** X5. On a verified recognized event that normalizes, the route makes
    exactly three collaborator calls in this order, whatever they answer: the
    verifier, Gmail, and the store with one row for the table
    "Failed Payments".  The row carries the id of the Stripe object, the
    upper-cased currency (for a currency of ASCII characters) and the status
    "New". *)
Theorem webhook_delivers_once_in_order :
  forall env req w event pd,
    constructEvent env (List.length (calls w)) (body req)
      (header_lookup "stripe-signature" (headers req))
      (STRIPE_WEBHOOK_SECRET env) = Ok event ->
    Str.includes recognized_types (Stripe.type event) = true ->
    normalize event = Ok pd ->
    is_ascii_text (Stripe.currency (Stripe.data_object event)) = true ->
    exists raw row,
      calls (snd (webhook_stripe env req w))
      = (calls w
         ++ [ConstructEvent (body req)
               (header_lookup "stripe-signature" (headers req))
               (STRIPE_WEBHOOK_SECRET env);
             GmailSend "me" raw;
             TableCreate "Failed Payments" [row]])%list
      /\ field "Payment ID" row
         = Some (FVal (JStr (Stripe.id (Stripe.data_object event))))
      /\ field "Currency" row
         = Some (FVal (JStr (Str.toUpperCase
                               (Stripe.currency (Stripe.data_object event)))))
      /\ field "Status" row = Some (FVal (JStr "New")).
Proof.
  intros env req w event pd Hsig Hrec Hn _.
  destruct (normalize_strings event pd Hrec Hn) as (Hid & _ & _).
  set (w0 := called
               [ConstructEvent (body req)
                  (header_lookup "stripe-signature" (headers req))
                  (STRIPE_WEBHOOK_SECRET env)] w).
  destruct (processFailedPayment_calls env event pd w0 Hrec Hn)
    as (raw & t & Hcalls).
  exists raw. eexists.
  split; [| split; [| split]].
  - rewrite webhook_stripe_run. cbv zeta. rewrite Hsig, Hrec. fold w0.
    destruct (processFailedPayment env event w0) as [[[] | e] w1];
      cbn [snd] in *; rewrite calls_logged, Hcalls;
      unfold w0, called; cbn [calls]; rewrite <- app_assoc; reflexivity.
  - cbn [airtable_fields field String.eqb Ascii.eqb Bool.eqb].
    now rewrite Hid.
  - reflexivity.
  - reflexivity.
Qed.

(** ** The normalizer and the sinks, further cases *)

(** X6. For an invoice event the reason is fixed: whatever the invoice
    carries in its own [failure_code], [failure_message] or
    [last_payment_error], the record has the code "invoice_payment_failed"
    and the message "Invoice payment failed", the body of the alert prints
    them and the row of the Recorder holds them. *)
Theorem invoice_reason_is_fixed :
  forall event pd,
    Stripe.type event = "invoice.payment_failed" ->
    normalize event = Ok pd ->
    failure_code pd = JStr "invoice_payment_failed"
    /\ failure_message pd = JStr "Invoice payment failed"
    /\ (forall upper,
          Str.contains (body_template pd upper)
            ("- Failure Code: invoice_payment_failed" ++ Str.nl
             ++ "- Failure Message: Invoice payment failed" ++ Str.nl))
    /\ (forall upper t,
          field "Failure Code" (airtable_fields pd upper t)
          = Some (FVal (JStr "invoice_payment_failed"))
          /\ field "Failure Message" (airtable_fields pd upper t)
             = Some (FVal (JStr "Invoice payment failed"))).
Proof.
  intros event pd Ht Hn.
  assert (Hcode : failure_code pd = JStr "invoice_payment_failed"
                  /\ failure_message pd = JStr "Invoice payment failed").
  { revert Hn. unfold normalize. rewrite Ht.
    cbv beta iota delta [String.eqb Ascii.eqb Bool.eqb]. cbv beta iota.
    destruct (JsDate.toISOString (Stripe.created event * 1000));
      cbn [result_map]; intros Heq; inversion Heq; split; reflexivity. }
  destruct Hcode as [Hc Hm].
  split; [exact Hc | split; [exact Hm | split]].
  - intros upper.
    pose proof (body_template_reason_lines pd upper) as Hlines.
    now rewrite Hc, Hm in Hlines.
  - intros upper t.
    cbn [airtable_fields field String.eqb Ascii.eqb Bool.eqb].
    rewrite Hc, Hm. split; reflexivity.
Qed.

Lemma truthy_or_default v s :
  s <> EmptyString -> truthy (js_or v (JStr s)) = true.
Proof.
  intros Hs. unfold js_or. destruct (truthy v) eqn:Hv; [exact Hv |].
  cbn. apply negb_true_iff, String.eqb_neq, Hs.
Qed.

(** X15. The record of a recognized event never has a falsy
    [customer_email]: it is a truthy value of the event or "Unknown".  So
    the fallback of the Recorder changes nothing on the webhook path: the
    Customer Email column is the [customer_email] of the record. *)
Theorem normalized_email_is_truthy :
  forall event pd,
    Str.includes recognized_types (Stripe.type event) = true ->
    normalize event = Ok pd ->
    truthy (customer_email pd) = true
    /\ forall upper t,
         field "Customer Email" (airtable_fields pd upper t)
         = Some (FVal (customer_email pd)).
Proof.
  intros event pd Hrec Hn.
  assert (Ht : truthy (customer_email pd) = true).
  { revert Hn.
    by_shape event Hrec;
      destruct (JsDate.toISOString (Stripe.created event * 1000));
      cbn [result_map]; intros Heq; inversion Heq; cbn [customer_email];
      apply truthy_or_default; discriminate. }
  split; [exact Ht |].
  intros upper t.
  cbn [airtable_fields field String.eqb Ascii.eqb Bool.eqb].
  unfold js_or. now rewrite Ht.
Qed.

(** X16. Whatever record the Recorder is given, the row never holds a falsy
    customer e-mail, failure code or failure message: each of the three
    columns is a truthy value of the record or "Unknown". *)
Theorem recorder_row_has_no_empty_reason :
  forall pd upper t name,
    In name ["Customer Email"; "Failure Code"; "Failure Message"] ->
    exists v,
      field name (airtable_fields pd upper t) = Some (FVal v)
      /\ truthy v = true
      /\ (v = JStr "Unknown"
          \/ In v [customer_email pd; failure_code pd; failure_message pd]).
Proof.
  intros pd upper t name Hin.
  assert (Hor : forall x, js_or x (JStr "Unknown") = JStr "Unknown"
                          \/ js_or x (JStr "Unknown") = x).
  { intros x. unfold js_or. destruct (truthy x); auto. }
  destruct Hin as [<- | [<- | [<- | []]]];
    eexists; (split; [reflexivity | split;
      [apply truthy_or_default; discriminate |]]).
  - destruct (Hor (customer_email pd)) as [-> | ->]; cbn; auto.
  - destruct (Hor (failure_code pd)) as [-> | ->]; cbn; auto.
  - destruct (Hor (failure_message pd)) as [-> | ->]; cbn; auto.
Qed.

Lemma sinks_without_currency env pd :
  (forall c, currency pd <> JStr c) ->
  exists e,
    toUpperCase_method (currency pd) = Throw e
    /\ forall w,
         sendGmailAlert env pd w
         = (Ok tt,
            logged env ("Error sending Gmail alert: " ++ error_message e) w)
         /\ addToAirtable env pd w
            = (Throw e,
               logged env ("Error adding to Airtable: " ++ error_message e)
                 w).
Proof.
  intros Hc.
  assert (He : exists e, toUpperCase_method (currency pd) = Throw e).
  { destruct (currency pd) as [| | b | c]; cbn; eauto. now destruct (Hc c). }
  destruct He as [e He]. exists e. split; [exact He |].
  intros w. split.
  - rewrite sendGmailAlert_run. unfold alert_body. now rewrite He.
  - rewrite addToAirtable_run. now rewrite He.
Qed.

(** X9. A record whose [currency] is not a string reaches no collaborator.
    [sendGmailAlert] logs the error and returns without a call to Gmail;
    [addToAirtable] logs the error and throws it without a call to the
    store. *)
Theorem record_without_currency_is_not_sent :
  forall env pd w,
    (forall c, currency pd <> JStr c) ->
    exists e,
      toUpperCase_method (currency pd) = Throw e
      /\ sendGmailAlert env pd w
         = (Ok tt,
            logged env ("Error sending Gmail alert: " ++ error_message e) w)
      /\ addToAirtable env pd w
         = (Throw e,
            logged env ("Error adding to Airtable: " ++ error_message e) w)
      /\ calls (snd (sendGmailAlert env pd w)) = calls w
      /\ calls (snd (addToAirtable env pd w)) = calls w.
Proof.
  intros env pd w Hc.
  destruct (sinks_without_currency env pd Hc) as (e & He & Hsinks).
  destruct (Hsinks w) as [Hs Ha].
  exists e. rewrite Hs, Ha.
  split; [exact He | repeat split].
Qed.

Lemma normalize_other_type event :
  Str.includes recognized_types (Stripe.type event) = false ->
  normalize event = Ok empty_object.
Proof.
  unfold Str.includes, recognized_types. cbn [existsb].
  rewrite !orb_false_iff. intros (H1 & H2 & H3 & _).
  unfold normalize. now rewrite H1, H2, H3.
Qed.

(** X10. [processFailedPayment] on an event of another type builds the empty
    record: nothing is sent to Gmail or to the store, the three functions
    log the same error in turn and the error is thrown to the caller. *)
Theorem unmatched_event_is_never_delivered :
  forall env event w,
    Str.includes recognized_types (Stripe.type event) = false ->
    exists e,
      fst (processFailedPayment env event w) = Throw e
      /\ calls (snd (processFailedPayment env event w)) = calls w
      /\ last_messages 3 (snd (processFailedPayment env event w))
         = ["Error sending Gmail alert: " ++ error_message e;
            "Error adding to Airtable: " ++ error_message e;
            "Error processing failed payment: " ++ error_message e].
Proof.
  intros env event w Hother.
  destruct (sinks_without_currency env empty_object) as (e & _ & He);
    [discriminate |].
  exists e.
  rewrite processFailedPayment_run, (normalize_other_type event Hother).
  destruct (He w) as (Hs & _). rewrite Hs. cbn [snd].
  destruct (He (logged env
                  ("Error sending Gmail alert: " ++ error_message e) w))
    as (_ & Ha). rewrite Ha. cbn [fst snd].
  split; [reflexivity | split].
  - rewrite !calls_logged. reflexivity.
  - rewrite !last_messages_logged, last_messages_0 by lia. reflexivity.
Qed.

(** ** [GET /logs] after any number of appends *)

Lemma stamped_messages env messages :
  forall t, map message (stamped env t messages) = messages.
Proof.
  induction messages as [| m r IH]; intros t; cbn [stamped map message].
  - reflexivity.
  - now rewrite IH.
Qed.

(** X11. From an empty log and after any number of appends, [GET /logs]
    answers with the last 20 entries in the order of their insertion: all of
    them while there are at most 20, and never more than 20. *)
Theorem logs_endpoint_returns_last_twenty :
  forall env (console0 : list string) (t : nat) (calls0 : list Call)
         (messages : list string),
    let w := snd (add_logs env messages (mkWorld [] console0 t calls0)) in
    let shown := slice_last 20 (stamped env t messages) in
    fst (get_logs w)
    = Ok (mkResponse 200
            (SendJson (JsonObj [("logs", JsonArr (map json_of_entry shown))])))
    /\ map message shown = slice_last 20 messages
    /\ List.length shown = Nat.min 20 (List.length messages).
Proof.
  intros env console0 t calls0 messages w shown.
  assert (Hlogs : logs w = slice_last 50 (stamped env t messages)).
  { subst w. rewrite add_logs_run. cbn [snd].
    rewrite logs_logged_all by (cbn; lia). reflexivity. }
  split; [| split].
  - unfold get_logs. cbn [fst]. rewrite Hlogs, slice_last_twice by lia.
    reflexivity.
  - subst shown. now rewrite slice_last_map, stamped_messages.
  - subst shown. rewrite slice_last_length.
    now rewrite <- (length_map message), stamped_messages.
Qed.

(** ** The recipient of the alert *)


(** ** The body the verifier is given *)

Lemma webhook_first_call env req w :
  exists rest,
    calls (snd (webhook_stripe env req w))
    = (calls w
       ++ ConstructEvent (body req)
            (header_lookup "stripe-signature" (headers req))
            (STRIPE_WEBHOOK_SECRET env)
          :: rest)%list.
Proof.
  rewrite webhook_stripe_run. cbv zeta.
  set (w0 := called
               [ConstructEvent (body req)
                  (header_lookup "stripe-signature" (headers req))
                  (STRIPE_WEBHOOK_SECRET env)] w).
  destruct (constructEvent env _ _ _ _) as [event | err].
  - destruct (Str.includes recognized_types (Stripe.type event)).
    + pose proof (steady_processFailedPayment env event w0) as Hg.
      apply calls_grows in Hg. destruct Hg as [more Hmore].
      exists more.
      destruct (processFailedPayment env event w0) as [[[] | e] w1];
        cbn [snd] in *; rewrite calls_logged, Hmore;
        unfold w0, called; cbn [calls]; now rewrite <- app_assoc.
    + exists []. reflexivity.
  - exists []. reflexivity.
Qed.

Lemma fresh_request_after_middleware env ct cs hs pl req' :
  middleware env (incoming ct cs hs pl) = inl req' ->
  exists b p,
    req' = set_body b p (incoming ct cs hs pl)
    /\ (b = BodyUndefined \/ exists j, b = BodyObject j).
Proof.
  cbv [middleware express_json express_raw incoming set_body or_empty_object
         has_type body_parsed body payload content_type charset headers].
  destruct pl as [bytes |].
  - destruct ct as [c |].
    + destruct (c === "application/json") eqn:Hc; cbv [negb].
      * destruct (String.prefix "utf-" _); [| discriminate].
        destruct (read_body env _ bytes) as [read | r]; [| discriminate].
        destruct (strict_parse env _) as [j |]; [| discriminate].
        intros Heq. inversion Heq. eauto 6.
      * rewrite Hc.
        destruct (express env); intros Heq; inversion Heq; eauto 6.
    + cbv [negb].
      destruct (express env); intros Heq; inversion Heq; eauto 6.
  - destruct (express env); intros Heq; inversion Heq; eauto 6.
Qed.

(** X14. No request reaches the verifier with its raw bytes, in Express 4
    and in Express 5.  For every request as it arrives, of any content
    type, with any content encoding and with or without a body, either a
    parser rejects it (400, 413 or 415) before the route runs and the world
    stays as it is, or the first call the route makes hands [undefined] or
    an object ([{}] or the parsed JSON) to the verifier, never a buffer. *)
Theorem no_request_is_verified_raw :
  forall env ct cs hs pl w,
    let req := incoming ct cs hs pl in
    (exists response,
       app_post_webhook_stripe env req w = (Ok response, w)
       /\ res_body response = ErrorPage
       /\ In (status response) [400; 413; 415])
    \/ (exists b rest,
          (b = BodyUndefined \/ exists j, b = BodyObject j)
          /\ (forall bytes, b <> BodyBuffer bytes)
          /\ calls (snd (app_post_webhook_stripe env req w))
             = (calls w
                ++ ConstructEvent b (header_lookup "stripe-signature" hs)
                     (STRIPE_WEBHOOK_SECRET env)
                   :: rest)%list).
Proof.
  intros env ct cs hs pl w req. unfold app_post_webhook_stripe.
  destruct (middleware env req) as [req' | response] eqn:Hm.
  - right.
    destruct (fresh_request_after_middleware env ct cs hs pl req' Hm)
      as (b & p & -> & Hb).
    destruct (webhook_first_call env
                (set_body b p (incoming ct cs hs pl)) w)
      as [rest Hrest].
    exists b, rest. split; [exact Hb | split; [| exact Hrest]].
    intros bytes. destruct Hb as [-> | [j ->]]; discriminate.
  - left. exists response.
    destruct (middleware_rejects env req response Hm) as [Hb Hs].
    repeat split; assumption.
Qed.

(** ** The encoding of the message *)

Lemma string_ind3 (P : string -> Prop) :
  P EmptyString ->
  (forall a, P (String a EmptyString)) ->
  (forall a b, P (String a (String b EmptyString))) ->
  (forall a b c r, P r -> P (String a (String b (String c r)))) ->
  forall s, P s.
Proof.
  intros H0 H1 H2 H3.
  assert (H : forall s,
            P s /\ (forall a, P (String a s))
            /\ (forall a b, P (String a (String b s)))).
  { induction s as [| c r (IH0 & IH1 & IH2)].
    - auto.
    - repeat split; auto. }
  intros s. apply H.
Qed.

Lemma byte_range c : 0 <= Base64.byte c < 256.
Proof.
  unfold Base64.byte. pose proof (nat_ascii_bounded c). lia.
Qed.

Lemma sextet_is_base64 k :
  0 <= k < 64 -> is_base64 (Base64.sextet k) = true.
Proof.
  intros Hk. unfold Base64.sextet.
  assert (Hn : (Z.to_nat k < 64)%nat) by lia.
  revert Hn. generalize (Z.to_nat k). intros n Hn.
  do 64 (destruct n as [| n]; [reflexivity |]). lia.
Qed.

Lemma land_63_range x : 0 <= Z.land x 63 < 64.
Proof.
  change 63 with (Z.ones 6). rewrite Z.land_ones by lia.
  apply Z.mod_pos_bound. reflexivity.
Qed.

Lemma shiftr_18_range n : 0 <= n < 2 ^ 24 -> 0 <= Z.shiftr n 18 < 64.
Proof.
  intros Hn. rewrite Z.shiftr_div_pow2 by lia. split.
  - apply Z.div_pos; lia.
  - apply Z.div_lt_upper_bound; lia.
Qed.

Lemma lor_below_2_24 a b :
  0 <= a < 2 ^ 24 -> 0 <= b < 2 ^ 24 -> 0 <= Z.lor a b < 2 ^ 24.
Proof.
  intros Ha Hb.
  assert (Hnn : 0 <= Z.lor a b) by (apply Z.lor_nonneg; lia).
  split; [exact Hnn |].
  destruct (Z.eq_dec (Z.lor a b) 0) as [-> | Hz]; [reflexivity |].
  apply Z.log2_lt_pow2; [lia |].
  rewrite Z.log2_lor by lia.
  assert (Hl : forall x, 0 <= x < 2 ^ 24 -> Z.log2 x < 24).
  { intros x Hx. destruct (Z.eq_dec x 0) as [-> | Hx0]; [reflexivity |].
    apply Z.log2_lt_pow2; lia. }
  pose proof (Hl a Ha). pose proof (Hl b Hb). lia.
Qed.

Lemma shiftl_byte_below c k :
  0 <= k <= 16 -> 0 <= Z.shiftl (Base64.byte c) k < 2 ^ 24.
Proof.
  intros Hk. rewrite Z.shiftl_mul_pow2 by lia.
  pose proof (byte_range c) as Hc.
  assert (Hp : 0 < 2 ^ k <= 2 ^ 16).
  { split; [apply Z.pow_pos_nonneg; lia | apply Z.pow_le_mono_r; lia]. }
  change (2 ^ 16) with 65536 in Hp. change (2 ^ 24) with 16777216. nia.
Qed.

Lemma base64_is_not_padding c :
  is_base64 c = true -> Ascii.eqb c "=" = false.
Proof.
  destruct (Ascii.eqb_spec c "=") as [-> | _]; [discriminate | reflexivity].
Qed.

Lemma padded_cons c r :
  is_base64 c = true -> padded (String c r) = padded r.
Proof.
  intros Hc. cbn [padded]. now rewrite (base64_is_not_padding c Hc), Hc.
Qed.

Ltac sextet_ok :=
  apply sextet_is_base64;
  first [ apply land_63_range | apply shiftr_18_range; assumption ].

Lemma encode_is_padded s : padded (Base64.encode s) = true.
Proof.
  induction s as [| a | a b | a b c r IH] using string_ind3.
  - reflexivity.
  - cbn [Base64.encode]. cbv zeta.
    assert (Hn : 0 <= Z.shiftl (Base64.byte a) 16 < 2 ^ 24)
      by (apply shiftl_byte_below; lia).
    repeat (rewrite padded_cons by sextet_ok). reflexivity.
  - cbn [Base64.encode]. cbv zeta.
    assert (Hn : 0 <= Z.lor (Z.shiftl (Base64.byte a) 16)
                        (Z.shiftl (Base64.byte b) 8) < 2 ^ 24)
      by (apply lor_below_2_24; apply shiftl_byte_below; lia).
    repeat (rewrite padded_cons by sextet_ok). reflexivity.
  - cbn [Base64.encode]. cbv zeta.
    assert (Hn : 0 <= Z.lor (Z.lor (Z.shiftl (Base64.byte a) 16)
                               (Z.shiftl (Base64.byte b) 8))
                        (Base64.byte c) < 2 ^ 24).
    { apply lor_below_2_24.
      - apply lor_below_2_24; apply shiftl_byte_below; lia.
      - pose proof (byte_range c). change (2 ^ 24) with 16777216. lia. }
    do 4 (rewrite padded_cons by sextet_ok). exact IH.
Qed.

Lemma url_char_is_safe c :
  is_base64 c = true ->
  is_url_safe (if Ascii.eqb c "+" then "-"
               else if Ascii.eqb c "/" then "_" else c)%char = true.
Proof.
  destruct c as [b0 b1 b2 b3 b4 b5 b6 b7].
  destruct b0, b1, b2, b3, b4, b5, b6, b7;
    vm_compute; intros H; first [reflexivity | discriminate H].
Qed.

Lemma strip_only_padding r :
  all_chars (Ascii.eqb "=") r = true ->
  Base64.strip_padding (Base64.url_chars r) = EmptyString.
Proof.
  induction r as [| c r IH]; cbn [all_chars]; [reflexivity |].
  intros H. apply andb_true_iff in H. destruct H as [Hc Hr].
  apply Ascii.eqb_eq in Hc. subst c.
  cbn [Base64.url_chars Base64.strip_padding].
  rewrite (IH Hr). reflexivity.
Qed.

Lemma padded_becomes_url_safe t :
  padded t = true ->
  all_chars is_url_safe (Base64.strip_padding (Base64.url_chars t)) = true.
Proof.
  induction t as [| c r IH]; [reflexivity |].
  cbn [padded].
  destruct (Ascii.eqb_spec c "=") as [-> | Hne].
  - intros Hr. cbn [Base64.url_chars Base64.strip_padding].
    now rewrite (strip_only_padding r Hr).
  - intros H. apply andb_true_iff in H. destruct H as [Hc Hr].
    cbn [Base64.url_chars Base64.strip_padding].
    pose proof (url_char_is_safe c Hc) as Hsafe.
    specialize (IH Hr).
    destruct (Base64.strip_padding (Base64.url_chars r)) as [| c' r'].
    + destruct (Ascii.eqb _ "="); [reflexivity |].
      cbn [all_chars]. now rewrite Hsafe.
    + cbn [all_chars] in *. now rewrite Hsafe, IH.
Qed.

(** X12. The encoded message is URL-safe base64 without padding: it
    consists of letters, digits, "-" and "_" only, for every message.  So
    does every raw message that [sendGmailAlert] hands to Gmail, and it
    makes at most one such call. *)
Theorem raw_message_is_url_safe :
  (forall message,
     all_chars is_url_safe (Base64.encode_url message) = true)
  /\ (forall env pd w,
        calls (snd (sendGmailAlert env pd w)) = calls w
        \/ exists raw,
             calls (snd (sendGmailAlert env pd w))
             = (calls w ++ [GmailSend "me" raw])%list
             /\ all_chars is_url_safe raw = true).
Proof.
  assert (Hsafe : forall message,
            all_chars is_url_safe (Base64.encode_url message) = true).
  { intros message. unfold Base64.encode_url.
    apply padded_becomes_url_safe, encode_is_padded. }
  split; [exact Hsafe |].
  intros env pd w. rewrite sendGmailAlert_run.
  destruct (alert_body pd) as [text | e].
  - right. cbv zeta. eexists. split; [| apply Hsafe].
    destruct (gmail_send env _ _ _) as [[] | e];
      cbn [snd]; rewrite calls_logged; reflexivity.
  - left. cbn [snd]. now rewrite calls_logged.
Qed.

(** ** The further theorems at sample inputs *)

Lemma other_event_types_witness :
  fst (webhook_stripe
         (Sample.env Sample2.other_event Sample.gmail_up Sample.airtable_up)
         Sample.raw_request Sample.world)
  = Ok received.
Proof.
  exact (proj1
    (other_event_types_are_acknowledged
       (Sample.env Sample2.other_event Sample.gmail_up Sample.airtable_up)
       Sample.raw_request Sample.world Sample2.other_event
       eq_refl eq_refl)).
Defined.

Lemma event_time_out_of_range_witness :
  fst (webhook_stripe
         (Sample.env Sample2.charge_far_future Sample.gmail_up
            Sample.airtable_up)
         Sample.raw_request Sample.world)
  = Ok (mkResponse 500 (Send "Internal Server Error")).
Proof.
  exact (proj1
    (proj2
       (event_time_out_of_range_is_500
          (Sample.env Sample2.charge_far_future Sample.gmail_up
             Sample.airtable_up)
          Sample.raw_request Sample.world Sample2.charge_far_future
          eq_refl eq_refl)
       (or_intror eq_refl))).
Defined.

Lemma webhook_delivers_witness :
  exists raw row,
    calls (snd (webhook_stripe
                  (Sample.env Sample.charge_failed Sample.gmail_down
                     Sample.airtable_down)
                  Sample.raw_request Sample.world))
    = [ConstructEvent (BodyBuffer Sample.wire_payload) (JStr "t=1,v1=abc")
         (JStr "whsec_test");
       GmailSend "me" raw;
       TableCreate "Failed Payments" [row]]
    /\ field "Payment ID" row = Some (FVal (JStr "ch_1"))
    /\ field "Currency" row = Some (FVal (JStr "USD"))
    /\ field "Status" row = Some (FVal (JStr "New")).
Proof.
  exact (webhook_delivers_once_in_order
           (Sample.env Sample.charge_failed Sample.gmail_down
              Sample.airtable_down)
           Sample.raw_request Sample.world Sample.charge_failed
           Sample.charge_record eq_refl eq_refl eq_refl eq_refl).
Defined.

Lemma invoice_reason_witness :
  failure_code Sample.invoice_record = JStr "invoice_payment_failed".
Proof.
  exact (proj1 (invoice_reason_is_fixed Sample.invoice_failed
                  Sample.invoice_record eq_refl eq_refl)).
Defined.

Lemma test_run_succeeds_witness :
  exists raw t,
    calls (snd (post_test
                  (Sample.env Sample.charge_failed Sample.gmail_down
                     Sample.airtable_up)
                  Sample.world))
    = [GmailSend "me" raw;
       TableCreate "Failed Payments"
         [airtable_fields
            (test_data (Sample.tick_clock 0) (Sample.tick_clock 1)) "USD" t]].
Proof.
  exact (proj2
    (test_run_succeeds_when_store_answers
       (Sample.env Sample.charge_failed Sample.gmail_down Sample.airtable_up)
       Sample.world (mkAirtableRecord "rec1") [] (fun _ _ _ => eq_refl))).
Defined.

Lemma test_run_reports_witness :
  fst (post_test
         (Sample.env Sample.charge_failed Sample.gmail_up Sample.airtable_down)
         Sample.world)
  = Ok (mkResponse 500
          (SendJson (JsonObj [("success", JsonBool false);
                              ("error", JsonStr "NOT_FOUND")]))).
Proof.
  exact (test_run_reports_store_failure
           (Sample.env Sample.charge_failed Sample.gmail_up
              Sample.airtable_down)
           Sample.world (mkError "NOT_FOUND") (fun _ _ _ => eq_refl)).
Defined.

Lemma record_without_currency_witness :
  exists e,
    toUpperCase_method (currency empty_object) = Throw e
    /\ sendGmailAlert
         (Sample.env Sample.charge_failed Sample.gmail_up Sample.airtable_up)
         empty_object Sample.world
       = (Ok tt,
          logged
            (Sample.env Sample.charge_failed Sample.gmail_up
               Sample.airtable_up)
            ("Error sending Gmail alert: " ++ error_message e) Sample.world)
    /\ addToAirtable
         (Sample.env Sample.charge_failed Sample.gmail_up Sample.airtable_up)
         empty_object Sample.world
       = (Throw e,
          logged
            (Sample.env Sample.charge_failed Sample.gmail_up
               Sample.airtable_up)
            ("Error adding to Airtable: " ++ error_message e) Sample.world)
    /\ calls (snd (sendGmailAlert
                     (Sample.env Sample.charge_failed Sample.gmail_up
                        Sample.airtable_up)
                     empty_object Sample.world))
       = calls Sample.world
    /\ calls (snd (addToAirtable
                     (Sample.env Sample.charge_failed Sample.gmail_up
                        Sample.airtable_up)
                     empty_object Sample.world))
       = calls Sample.world.
Proof.
  refine (record_without_currency_is_not_sent
            (Sample.env Sample.charge_failed Sample.gmail_up
               Sample.airtable_up)
            empty_object Sample.world _).
  intros c H. discriminate H.
Defined.

Lemma unmatched_event_witness :
  exists e,
    fst (processFailedPayment
           (Sample.env Sample2.other_event Sample.gmail_up Sample.airtable_up)
           Sample2.other_event Sample.world)
    = Throw e
    /\ calls (snd (processFailedPayment
                     (Sample.env Sample2.other_event Sample.gmail_up
                        Sample.airtable_up)
                     Sample2.other_event Sample.world))
       = calls Sample.world
    /\ last_messages 3
         (snd (processFailedPayment
                 (Sample.env Sample2.other_event Sample.gmail_up
                    Sample.airtable_up)
                 Sample2.other_event Sample.world))
       = ["Error sending Gmail alert: " ++ error_message e;
          "Error adding to Airtable: " ++ error_message e;
          "Error processing failed payment: " ++ error_message e].
Proof.
  exact (unmatched_event_is_never_delivered
           (Sample.env Sample2.other_event Sample.gmail_up Sample.airtable_up)
           Sample2.other_event Sample.world eq_refl).
Defined.


Lemma normalized_email_witness :
  truthy (customer_email Sample.charge_record) = true.
Proof.
  exact (proj1 (normalized_email_is_truthy Sample.charge_failed
                  Sample.charge_record eq_refl eq_refl)).
Defined.

Lemma recorder_row_witness :
  exists v,
    field "Failure Code"
      (airtable_fields Sample.record_without_reason "EUR" 0)
    = Some (FVal v)
    /\ truthy v = true
    /\ (v = JStr "Unknown"
        \/ In v [customer_email Sample.record_without_reason;
                 failure_code Sample.record_without_reason;
                 failure_message Sample.record_without_reason]).
Proof.
  exact (recorder_row_has_no_empty_reason Sample.record_without_reason "EUR"
           0 "Failure Code" (or_intror (or_introl eq_refl))).
Defined.

(** ** The response and the e-mail *)

Lemma sendGmailAlert_clock_and_calls env pd w :
  ticks (snd (sendGmailAlert env pd w)) = S (ticks w)
  /\ List.length (calls (snd (sendGmailAlert env pd w)))
     = (List.length (calls w)
        + match alert_body pd with Ok _ => 1 | Throw _ => 0 end)%nat.
Proof.
  rewrite sendGmailAlert_run.
  destruct (alert_body pd) as [text | e].
  - cbv zeta. destruct (gmail_send env _ _ _) as [[] | e];
      cbn [snd]; rewrite ticks_logged, calls_logged;
      unfold called; cbn [ticks calls]; rewrite last_length;
      split; [reflexivity | lia | reflexivity | lia].
  - cbn [snd]. rewrite ticks_logged, calls_logged. split; [reflexivity | lia].
Qed.

Lemma addToAirtable_result env pd w :
  fst (addToAirtable env pd w)
  = match toUpperCase_method (currency pd) with
    | Throw e => Throw e
    | Ok upper =>
        match table_create env (List.length (calls w)) "Failed Payments"
                [airtable_fields pd upper (clock env (ticks w))] with
        | Throw e => Throw e
        | Ok [] =>
            Throw
              (mkError "Cannot read properties of undefined (reading 'id')")
        | Ok (record0 :: _) => Ok record0
        end
    end.
Proof.
  rewrite addToAirtable_run.
  destruct (toUpperCase_method (currency pd)) as [upper | e]; [| reflexivity].
  cbv zeta.
  destruct (table_create env _ _ _) as [[| record0 rest] | e]; reflexivity.
Qed.

Lemma processFailedPayment_result env event w :
  fst (processFailedPayment env event w)
  = match normalize event with
    | Throw e => Throw e
    | Ok pd =>
        match fst (addToAirtable env pd (snd (sendGmailAlert env pd w))) with
        | Ok _ => Ok tt
        | Throw e => Throw e
        end
    end.
Proof.
  rewrite processFailedPayment_run.
  destruct (normalize event) as [pd | e]; [| reflexivity].
  destruct (addToAirtable env pd _) as [[r | e] w2]; reflexivity.
Qed.

Lemma webhook_stripe_result env req w :
  fst (webhook_stripe env req w)
  = let sig := header_lookup "stripe-signature" (headers req) in
    let secret := STRIPE_WEBHOOK_SECRET env in
    match constructEvent env (List.length (calls w)) (body req) sig secret with
    | Throw err =>
        Ok (mkResponse 400 (Send ("Webhook Error: " ++ error_message err)))
    | Ok event =>
        if Str.includes recognized_types (Stripe.type event) then
          match fst (processFailedPayment env event
                       (called [ConstructEvent (body req) sig secret] w)) with
          | Ok _ => Ok received
          | Throw _ => Ok (mkResponse 500 (Send "Internal Server Error"))
          end
        else Ok received
    end.
Proof.
  rewrite webhook_stripe_run. cbv zeta.
  destruct (constructEvent env _ _ _ _) as [event | err]; [| reflexivity].
  destruct (Str.includes recognized_types (Stripe.type event));
    [| reflexivity].
  destruct (processFailedPayment env event _) as [[[] | e] w1]; reflexivity.
Qed.

Lemma addToAirtable_after_any_gmail env gmail pd w :
  fst (addToAirtable (with_gmail gmail env) pd
         (snd (sendGmailAlert (with_gmail gmail env) pd w)))
  = fst (addToAirtable env pd (snd (sendGmailAlert env pd w))).
Proof.
  rewrite !addToAirtable_result.
  destruct (sendGmailAlert_clock_and_calls env pd w) as [Ht Hc].
  destruct (sendGmailAlert_clock_and_calls (with_gmail gmail env) pd w)
    as [Ht' Hc'].
  rewrite Ht, Hc, Ht', Hc'. reflexivity.
Qed.

(** X17. The answer of Gmail never shows in the response.  With any other
    behaviour of the e-mail collaborator, accepting or throwing, and the
    verifier, the clock and the store as they are, [POST /webhook/stripe]
    and [POST /test] answer the same. *)
Theorem response_does_not_depend_on_gmail :
  forall env gmail req w,
    fst (webhook_stripe (with_gmail gmail env) req w)
    = fst (webhook_stripe env req w)
    /\ fst (post_test (with_gmail gmail env) w) = fst (post_test env w).
Proof.
  intros env gmail req w. split.
  - rewrite !webhook_stripe_result. cbv zeta.
    change (constructEvent (with_gmail gmail env)) with (constructEvent env).
    change (STRIPE_WEBHOOK_SECRET (with_gmail gmail env))
      with (STRIPE_WEBHOOK_SECRET env).
    destruct (constructEvent env _ _ _ _) as [event | err]; [| reflexivity].
    destruct (Str.includes recognized_types (Stripe.type event));
      [| reflexivity].
    rewrite !processFailedPayment_result.
    destruct (normalize event) as [pd | e]; [| reflexivity].
    now rewrite addToAirtable_after_any_gmail.
  - rewrite !post_test_run. cbv zeta.
    change (clock (with_gmail gmail env)) with (clock env).
    pose proof (addToAirtable_after_any_gmail env gmail
                  (test_data (clock env (ticks w)) (clock env (S (ticks w))))
                  (ticked (ticked w))) as Heq.
    destruct (addToAirtable (with_gmail gmail env) _ _) as [[r | e] w2];
      destruct (addToAirtable env _ _) as [[r' | e'] w2'];
      cbn [fst] in *; try discriminate; try reflexivity.
    now injection Heq as ->.
Qed.
